(** * QA validation suite: flow orchestration and classification engine

    A shallow embedding of [qa_validation.py] (the orchestration script of the
    Scalable-microservices repository) together with the properties of its
    report aggregator, health aggregator, step classifiers and run sequence.

    Conventions of the embedding.
    - Python values decoded from JSON bodies are the inductive [json];
      [JNull] is Python's [None].
    - Python floats are IEEE binary64 values, modelled by the Standard
      Library's [spec_float] with precision 53 and maximal exponent 1024.
    - Exceptions are explicit: partial Python operations return [py A].
    - A Python [str] is the [string] of its UTF-8 bytes; string literals are
      the bytes of the source file.
    - The network is a deterministic environment [server]; every request that
      [make_request] hands to the HTTP client is appended to the engine's
      [sent] trace, so that "no call was issued" is a statement about that
      trace.
    - [httpx.Response] defines neither [__bool__] nor [__len__], hence a
      response object is truthy and [if response and ...] only tests that a
      response exists. *)

From Stdlib Require Import ZArith String Ascii List Permutation.
From Stdlib Require Import Floats.SpecFloat DecimalString.
From stdpp Require Import base gmap strings list.

Local Open Scope string_scope.
Local Open Scope list_scope.
Local Open Scope nat_scope.
Local Set Warnings "-register-all".

(** ** Exceptions *)

Inductive exn : Type :=
  | AttributeError        (* [.get] on a value that is not a dict *)
  | TypeError             (* [in] or indexing on a scalar *)
  | KeyError              (* integer index on a dict *)
  | IndexError            (* index into an empty sequence *)
  | JSONDecodeError       (* [response.json()] on a body that is not JSON *)
  | ZeroDivisionError.

Inductive py (A : Type) : Type :=
  | Ok (a : A)
  | Raise (e : exn).
Arguments Ok {A} a.
Arguments Raise {A} e.

(** ** Floats (binary64) *)

Module PyFloat.

Definition prec : Z := 53.
Definition emax : Z := 1024.

Definition of_int (z : Z) : spec_float := binary_normalize prec emax z 0 false.
Definition add (x y : spec_float) : spec_float := SFadd prec emax x y.
Definition mul (x y : spec_float) : spec_float := SFmul prec emax x y.
Definition div (x y : spec_float) : spec_float := SFdiv prec emax x y.

Definition is_zero (x : spec_float) : bool :=
  match x with S754_zero _ => true | _ => false end.

(** [a / b] on Python ints: true division, [ZeroDivisionError] on a zero
    divisor.  Both operands of the only division in the script are list
    lengths, far below [2^53], where the conversion to binary64 is exact
    and the quotient is the correctly rounded one. *)
Definition truediv (a b : Z) : py spec_float :=
  if (b =? 0)%Z then Raise ZeroDivisionError
  else Ok (div (of_int a) (of_int b)).

Definition dec (z : Z) : string := NilZero.string_of_int (Z.to_int z).

(** The integer nearest to [m * 2^e * 10], ties to even: the digits that
    [format(x, ".1f")] prints for [x = m * 2^e]. *)
Definition tenths (m : positive) (e : Z) : Z :=
  let n := (Z.pos m * 10)%Z in
  if (0 <=? e)%Z then (n * 2 ^ e)%Z
  else
    let d := (2 ^ (- e))%Z in
    let q := (n / d)%Z in
    let r := (n mod d)%Z in
    if (2 * r <? d)%Z then q
    else if (d <? 2 * r)%Z then (q + 1)%Z
    else if Z.even q then q else (q + 1)%Z.

Definition sign (s : bool) : string := if s then "-" else "".

(** [f"{x:.1f}"] *)
Definition format_1f (x : spec_float) : string :=
  match x with
  | S754_zero s => sign s +:+ "0.0"
  | S754_infinity s => sign s +:+ "inf"
  | S754_nan => "nan"
  | S754_finite s m e =>
      let t := tenths m e in
      sign s +:+ dec (t / 10) +:+ "." +:+ dec (t mod 10)
  end.

(** [sum(xs)] over floats, accumulated from the left. *)
Definition sum (xs : list spec_float) : spec_float :=
  fold_left add xs (S754_zero false).

End PyFloat.

(** ** JSON values as Python sees them *)

Inductive json : Type :=
  | JNull
  | JBool (b : bool)
  | JInt (z : Z)
  | JFloat (x : spec_float)
  | JStr (s : string)
  | JArr (xs : list json)
  | JObj (kvs : list (string * json)).

(** Python truthiness. *)
Definition truthy (v : json) : bool :=
  match v with
  | JNull => false
  | JBool b => b
  | JInt z => negb (z =? 0)%Z
  | JFloat x => negb (PyFloat.is_zero x)
  | JStr s => negb (String.eqb s "")
  | JArr xs => match xs with [] => false | _ => true end
  | JObj kvs => match kvs with [] => false | _ => true end
  end.

(** [x or y] *)
Definition py_or (x y : json) : json := if truthy x then x else y.

(** Lookup in a decoded object; the first binding of a key is the one the
    dict holds. *)
Fixpoint assoc (k : string) (kvs : list (string * json)) : option json :=
  match kvs with
  | [] => None
  | (k', v) :: rest => if String.eqb k k' then Some v else assoc k rest
  end.

(** [d.get(k, default)] *)
Definition py_get_default (d : json) (k : string) (default : json) : py json :=
  match d with
  | JObj kvs => Ok (match assoc k kvs with Some v => v | None => default end)
  | _ => Raise AttributeError
  end.

(** [d.get(k)] *)
Definition py_get (d : json) (k : string) : py json := py_get_default d k JNull.

Definition is_str (k : string) (v : json) : bool :=
  match v with JStr s => String.eqb s k | _ => false end.

Fixpoint is_prefix (p s : string) : bool :=
  match p, s with
  | EmptyString, _ => true
  | String a p', String b s' => Ascii.eqb a b && is_prefix p' s'
  | String _ _, EmptyString => false
  end.

Fixpoint is_substring (p s : string) : bool :=
  is_prefix p s ||
  match s with
  | EmptyString => false
  | String _ s' => is_substring p s'
  end.

(** [k in d] for a string [k]: key membership on a dict, element membership
    on a list, substring test on a string, [TypeError] otherwise. *)
Definition py_in (k : string) (d : json) : py bool :=
  match d with
  | JObj kvs => Ok (match assoc k kvs with Some _ => true | None => false end)
  | JArr xs => Ok (existsb (is_str k) xs)
  | JStr s => Ok (is_substring k s)
  | _ => Raise TypeError
  end.

(** [isinstance(d, list)] *)
Definition is_list (d : json) : bool :=
  match d with JArr _ => true | _ => false end.

(** Whether a byte continues a UTF-8 character (it reads [10xxxxxx]). *)
Definition continuation (a : ascii) : bool :=
  (128 <=? nat_of_ascii a) && (nat_of_ascii a <? 192).

(** [s[:n]]: the first [n] characters of a Python [str], which the embedding
    holds as its UTF-8 bytes.  A character is a leading byte together with
    the continuation bytes that follow it. *)
Fixpoint py_prefix (n : nat) (s : string) : string :=
  match s with
  | EmptyString => EmptyString
  | String a rest =>
      if continuation a then String a (py_prefix n rest)
      else match n with
           | 0 => EmptyString
           | S n' => String a (py_prefix n' rest)
           end
  end.

(** [s[0]] on a [str]: its first character. *)
Definition first_char (s : string) : option json :=
  match s with
  | EmptyString => None
  | String _ _ => Some (JStr (py_prefix 1 s))
  end.

(** [s[-1]] on a [str]: its last character, the bytes from the last leading
    byte on. *)
Fixpoint last_char (s : string) : option json :=
  match s with
  | EmptyString => None
  | String a s' =>
      match last_char s' with
      | Some (JStr (String b c)) =>
          if continuation b then Some (JStr (String a (String b c)))
          else Some (JStr (String b c))
      | _ => Some (JStr (String a EmptyString))
      end
  end.

Definition or_index_error (o : option json) : py json :=
  match o with Some v => Ok v | None => Raise IndexError end.

(** [d[0]] *)
Definition py_first (d : json) : py json :=
  match d with
  | JArr xs => or_index_error (head xs)
  | JStr s => or_index_error (first_char s)
  | JObj _ => Raise KeyError
  | _ => Raise TypeError
  end.

(** [d[-1]] *)
Definition py_last (d : json) : py json :=
  match d with
  | JArr xs => or_index_error (last xs)
  | JStr s => or_index_error (last_char s)
  | JObj _ => Raise KeyError
  | _ => Raise TypeError
  end.

(** ** Data model *)

Inductive TestResult : Type := PASS | FAIL | WARNING | SKIPPED.

Definition TestResult_eqb (a b : TestResult) : bool :=
  match a, b with
  | PASS, PASS | FAIL, FAIL | WARNING, WARNING | SKIPPED, SKIPPED => true
  | _, _ => false
  end.

Inductive Method : Type := GET | POST | PUT | DELETE.

(** The URL of a request: the configured base address of a service followed
    by a path.  Path parameters interpolated by an f-string are carried as
    the interpolated value. *)
Inductive Endpoint : Type :=
  | AuthSignup | AuthLogin | AuthMe
  | CatalogCategories | CatalogProducts | CatalogSearch
  | CatalogProduct (product_id : json)
  | Addresses
  | Cart | CartItems | CartItem (item_id : json)
  | CheckoutCreatePaymentIntent
  | Orders | Order (order_id : json) | OrderStatus (order_id : json)
  | OrdersAdminAll
  | CatalogAdminCategories
  | Inventory (sku : json + json)
  | InventoryReserve
  | Notify
  | Stores | StoresNearby
  | ReviewsProduct (product_id : json).

(** A SKU is [variant.get("sku") or f"SKU-{product_id}"]: the variant's own
    value ([inl]) or the string built from the product id ([inr]). *)
Definition sku_or_default (sku product_id : json) : json + json :=
  if truthy sku then inl sku else inr product_id.

(** JSON request bodies.  The signup and category payloads embed the wall
    clock in their text fields; it is not part of the model. *)
Inductive Payload : Type :=
  | SignupPayload
  | LoginPayload (email password : string)
  | AddressPayload
  | CartItemPayload (product_id variant_id : json) (sku : json + json) (price : json)
  | QuantityPayload (quantity : Z)
  | CheckoutPayload (shipping_address_id billing_address_id : json)
  | CategoryPayload
  | StatusPayload (status : string)
  | ReservePayload (sku : json + json) (order_id : json)
  | NotifyPayload.

Record APICall : Type := mkAPICall {
  url : Endpoint;
  method : Method;
  payload : option Payload;
  response_code : option Z;
  response_time : option spec_float;
  service : option string;
  error : json                      (* [JNull] when no error was captured *)
}.

(** The text of [TestFlow.root_cause]. *)
Inductive RootCause : Type :=
  | NoCause                          (* the empty default *)
  | Cause (text : string)            (* a literal message *)
  | CauseValue (v : json)            (* [call.error], or a field of the body *)
  | CauseStatus (code : option Z)    (* f"Status {call.response_code}" *)
  | CauseException (e : exn).        (* [str(e)] *)

(** A flow; its [fix_applied] note is documentation and is left out. *)
Record TestFlow : Type := mkTestFlow {
  name : string;
  result : TestResult;
  flow_service : string;
  apis : list APICall;
  root_cause : RootCause
}.

(** [TestFlow(name=..., service=...)] *)
Definition new_flow (n s : string) : TestFlow :=
  {| name := n; result := SKIPPED; flow_service := s; apis := [];
     root_cause := NoCause |}.

Record ServiceHealth : Type := mkServiceHealth {
  total : nat;
  success : nat;
  failures : nat;
  avg_latency : spec_float;
  latencies : list spec_float
}.

(** The report; its documentation lists and timestamps carry no behaviour
    and are left out. *)
Record QAReport : Type := mkQAReport {
  flows : list TestFlow;
  api_health : gmap string ServiceHealth
}.

Definition add_flow (flow : TestFlow) (r : QAReport) : QAReport :=
  {| flows := flows r ++ [flow]; api_health := api_health r |}.

Record Summary : Type := mkSummary {
  summary_total : nat;
  passed : nat;
  failed : nat;
  warnings : nat;
  skipped : nat;
  success_rate : string
}.

(** [sum(1 for f in self.flows if f.result == r)] *)
Definition count_result (r : TestResult) (fs : list TestFlow) : nat :=
  length (filter (fun f => TestResult_eqb (result f) r = true) fs).

(** f"{(passed/total*100):.1f}%" *)
Definition rate_percent (passed total : nat) : py string :=
  match PyFloat.truediv (Z.of_nat passed) (Z.of_nat total) with
  | Ok q => Ok (PyFloat.format_1f (PyFloat.mul q (PyFloat.of_int 100)) +:+ "%")
  | Raise e => Raise e
  end.

Definition get_summary (r : QAReport) : py Summary :=
  let total := length (flows r) in
  let passed := count_result PASS (flows r) in
  let failed := count_result FAIL (flows r) in
  let warnings := count_result WARNING (flows r) in
  let skipped := count_result SKIPPED (flows r) in
  match (if (0 <? total)%nat then rate_percent passed total else Ok "0%") with
  | Ok rate =>
      Ok {| summary_total := total; passed := passed; failed := failed;
            warnings := warnings; skipped := skipped; success_rate := rate |}
  | Raise e => Raise e
  end.

(** ** Health aggregator *)

Definition new_health : ServiceHealth :=
  {| total := 0; success := 0; failures := 0;
     avg_latency := S754_zero false; latencies := [] |}.

(** [call.response_code and 200 <= call.response_code < 300] *)
Definition is_2xx (code : option Z) : bool :=
  match code with
  | Some c => negb (c =? 0)%Z && (200 <=? c)%Z && (c <? 300)%Z
  | None => false
  end.

(** [if call.response_time:] *)
Definition measured (t : option spec_float) : option spec_float :=
  match t with
  | Some x => if PyFloat.is_zero x then None else Some x
  | None => None
  end.

Definition update_health (call : APICall) (h : ServiceHealth) : ServiceHealth :=
  let ok := is_2xx (response_code call) in
  let lat :=
    match measured (response_time call) with
    | Some x => latencies h ++ [x]
    | None => latencies h
    end in
  {| total := S (total h);
     success := if ok then S (success h) else success h;
     failures := if ok then failures h else S (failures h);
     avg_latency :=
       match measured (response_time call) with
       | Some _ => PyFloat.div (PyFloat.sum lat) (PyFloat.of_int (Z.of_nat (length lat)))
       | None => avg_latency h
       end;
     latencies := lat |}.

(** [if call.service:] *)
Definition tag (call : APICall) : option string :=
  match service call with
  | Some s => if String.eqb s "" then None else Some s
  | None => None
  end.

(** The health-table half of [log_api_call]. *)
Definition record (call : APICall) (health : gmap string ServiceHealth)
  : gmap string ServiceHealth :=
  match tag call with
  | Some s =>
      let h := match health !! s with Some h => h | None => new_health end in
      <[s := update_health call h]> health
  | None => health
  end.

(** ** The network and the engine *)

(** What [make_request] hands to [self.client.request]: the
    [Authorization] header is present when the token is truthy. *)
Record Request : Type := mkRequest {
  rq_method : Method;
  rq_url : Endpoint;
  rq_bearer : option json;
  rq_json : option Payload
}.

(** An HTTP response: [body] is what [response.json()] decodes ([None] when
    decoding raises), [text] is [response.text]. *)
Record Response : Type := mkResponse {
  status_code : Z;
  body : option json;
  text : string
}.

(** The outcome of one [client.request]: a response together with the
    wall-clock time measured around it, or an exception. *)
Inductive Reply : Type :=
  | Answer (r : Response) (elapsed : spec_float)
  | Refused (msg : string).

Record Engine : Type := mkEngine {
  report : QAReport;
  sent : list Request;              (* requests issued through [self.client] *)
  customer_token : json;
  admin_token : json;
  customer_user_id : json;
  admin_user_id : json;
  test_address_id : json;
  test_product_id : json;
  test_category_id : json;
  test_order_id : json;
  test_cart_item_id : json
}.

(** [QAAutomationEngine()] *)
Definition new_engine : Engine :=
  {| report := {| flows := []; api_health := ∅ |}; sent := [];
     customer_token := JNull; admin_token := JNull;
     customer_user_id := JNull; admin_user_id := JNull;
     test_address_id := JNull; test_product_id := JNull;
     test_category_id := JNull; test_order_id := JNull;
     test_cart_item_id := JNull |}.

Definition with_report (r : QAReport) (e : Engine) : Engine :=
  mkEngine r (sent e) (customer_token e) (admin_token e) (customer_user_id e)
    (admin_user_id e) (test_address_id e) (test_product_id e)
    (test_category_id e) (test_order_id e) (test_cart_item_id e).

Definition with_sent (l : list Request) (e : Engine) : Engine :=
  mkEngine (report e) l (customer_token e) (admin_token e) (customer_user_id e)
    (admin_user_id e) (test_address_id e) (test_product_id e)
    (test_category_id e) (test_order_id e) (test_cart_item_id e).

Definition with_customer_token (v : json) (e : Engine) : Engine :=
  mkEngine (report e) (sent e) v (admin_token e) (customer_user_id e)
    (admin_user_id e) (test_address_id e) (test_product_id e)
    (test_category_id e) (test_order_id e) (test_cart_item_id e).

Definition with_admin_token (v : json) (e : Engine) : Engine :=
  mkEngine (report e) (sent e) (customer_token e) v (customer_user_id e)
    (admin_user_id e) (test_address_id e) (test_product_id e)
    (test_category_id e) (test_order_id e) (test_cart_item_id e).

Definition with_customer_user_id (v : json) (e : Engine) : Engine :=
  mkEngine (report e) (sent e) (customer_token e) (admin_token e) v
    (admin_user_id e) (test_address_id e) (test_product_id e)
    (test_category_id e) (test_order_id e) (test_cart_item_id e).

Definition with_admin_user_id (v : json) (e : Engine) : Engine :=
  mkEngine (report e) (sent e) (customer_token e) (admin_token e)
    (customer_user_id e) v (test_address_id e) (test_product_id e)
    (test_category_id e) (test_order_id e) (test_cart_item_id e).

Definition with_test_address_id (v : json) (e : Engine) : Engine :=
  mkEngine (report e) (sent e) (customer_token e) (admin_token e)
    (customer_user_id e) (admin_user_id e) v (test_product_id e)
    (test_category_id e) (test_order_id e) (test_cart_item_id e).

Definition with_test_product_id (v : json) (e : Engine) : Engine :=
  mkEngine (report e) (sent e) (customer_token e) (admin_token e)
    (customer_user_id e) (admin_user_id e) (test_address_id e) v
    (test_category_id e) (test_order_id e) (test_cart_item_id e).

Definition with_test_category_id (v : json) (e : Engine) : Engine :=
  mkEngine (report e) (sent e) (customer_token e) (admin_token e)
    (customer_user_id e) (admin_user_id e) (test_address_id e)
    (test_product_id e) v (test_order_id e) (test_cart_item_id e).

Definition with_test_order_id (v : json) (e : Engine) : Engine :=
  mkEngine (report e) (sent e) (customer_token e) (admin_token e)
    (customer_user_id e) (admin_user_id e) (test_address_id e)
    (test_product_id e) (test_category_id e) v (test_cart_item_id e).

Definition with_test_cart_item_id (v : json) (e : Engine) : Engine :=
  mkEngine (report e) (sent e) (customer_token e) (admin_token e)
    (customer_user_id e) (admin_user_id e) (test_address_id e)
    (test_product_id e) (test_category_id e) (test_order_id e) v.

(** The session-state part of an engine, for statements that compare it. *)
Definition session (e : Engine) : list json :=
  [customer_token e; admin_token e; customer_user_id e; admin_user_id e;
   test_address_id e; test_product_id e; test_category_id e;
   test_order_id e; test_cart_item_id e].

Definition with_flow_result (r : TestResult) (f : TestFlow) : TestFlow :=
  mkTestFlow (name f) r (flow_service f) (apis f) (root_cause f).

Definition with_root_cause (c : RootCause) (f : TestFlow) : TestFlow :=
  mkTestFlow (name f) (result f) (flow_service f) (apis f) c.

(** [log_api_call]: the call is appended to the flow and recorded in the
    health table. *)
Definition log_api_call (call : APICall) (flow : TestFlow) (e : Engine)
  : TestFlow * Engine :=
  (mkTestFlow (name flow) (result flow) (flow_service flow)
     (apis flow ++ [call]) (root_cause flow),
   with_report {| flows := flows (report e);
                  api_health := record call (api_health (report e)) |} e).

(** [response.json().get("detail", response.text[:100])], falling back to
    [response.text[:100]] when that raises. *)
Definition error_summary (r : Response) : json :=
  let excerpt := JStr (py_prefix 100 (text r)) in
  match body r with
  | Some d =>
      match py_get_default d "detail" excerpt with
      | Ok v => v
      | Raise _ => excerpt
      end
  | None => excerpt
  end.

(** [if response.status_code >= 400:] the error summary is captured. *)
Definition captured_error (r : Response) : json :=
  if (400 <=? status_code r)%Z then error_summary r else JNull.

(** [if token: headers["Authorization"] = f"Bearer {token}"] *)
Definition bearer (token : json) : option json :=
  if truthy token then Some token else None.

(** [call.error or f"Status {call.response_code}"] *)
Definition status_cause (call : APICall) : RootCause :=
  if truthy (error call) then CauseValue (error call)
  else CauseStatus (response_code call).

(** [response and response.status_code == code] *)
Definition has_status (response : option Response) (code : Z) : bool :=
  match response with
  | Some r => (status_code r =? code)%Z
  | None => false
  end.

(** [response.json()] *)
Definition json_of (response : option Response) : py json :=
  match response with
  | Some r => match body r with Some d => Ok d | None => Raise JSONDecodeError end
  | None => Raise AttributeError
  end.

(** [k1 in d and k2 in d] *)
Definition py_in_both (k1 k2 : string) (d : json) : py bool :=
  match py_in k1 d with
  | Ok true => py_in k2 d
  | r => r
  end.

(** ** Step bodies: state, early return and exceptions *)

(** A step body runs on the flow under construction and the engine.  It
    either goes on with a value, executes [return flow], or raises. *)
Inductive ctl (A : Type) : Type :=
  | Next (a : A)
  | Return
  | Throw (e : exn).
Arguments Next {A} a.
Arguments Return {A}.
Arguments Throw {A} e.

Definition M (A : Type) : Type := TestFlow * Engine → ctl A * (TestFlow * Engine).

Definition ret {A} (a : A) : M A := λ s, (Next a, s).

Definition bind {A B} (m : M A) (k : A → M B) : M B := λ s,
  match m s with
  | (Next a, s') => k a s'
  | (Return, s') => (Return, s')
  | (Throw e, s') => (Throw e, s')
  end.

Declare Scope step_scope.
Delimit Scope step_scope with step.
Bind Scope step_scope with M.
Notation "x ← y ; z" := (bind y (λ x : _, z))
  (at level 20, y at level 100, z at level 200, only parsing) : step_scope.
Notation "' x ← y ; z" := (bind y (λ x : _, z))
  (at level 20, x pattern, y at level 100, z at level 200, only parsing) : step_scope.
Notation "x ;; z" := (bind x (λ _, z))
  (at level 100, z at level 200, only parsing, right associativity) : step_scope.
Local Open Scope step_scope.

Definition return_flow {A} : M A := λ s, (Return, s).

Definition lift {A} (r : py A) : M A := λ s,
  match r with
  | Ok a => (Next a, s)
  | Raise e => (Throw e, s)
  end.

Definition self : M Engine := λ s, (Next (snd s), s).

Definition update (f : Engine → Engine) : M unit := λ s, (Next (), (fst s, f (snd s))).

Definition set_result (r : TestResult) : M unit :=
  λ s, (Next (), (with_flow_result r (fst s), snd s)).

Definition set_root_cause (c : RootCause) : M unit :=
  λ s, (Next (), (with_root_cause c (fst s), snd s)).

Definition log (call : APICall) : M unit :=
  λ s, (Next (), log_api_call call (fst s) (snd s)).

Definition when (b : bool) (m : M unit) : M unit := if b then m else ret ().

(** [try: body  except Exception as e: flow.result = FAIL;
    flow.root_cause = str(e)] *)
Definition try_except (m : M unit) : M unit := λ s,
  match m s with
  | (Throw e, (flow, eng)) =>
      (Next (), (with_root_cause (CauseException e) (with_flow_result FAIL flow), eng))
  | r => r
  end.

(** A step: the flow is created, the body runs, the flow is returned. *)
Definition step (n svc : string) (m : M unit) (e : Engine) : TestFlow * Engine :=
  snd (m (new_flow n svc, e)).

(** [flow.result = FAIL; flow.root_cause = call.error or f"Status ..."] *)
Definition fail_with_status (call : APICall) : M unit :=
  set_result FAIL;; set_root_cause (status_cause call).

Section Steps.

(** The services under test, as seen from the client: the reply to a
    request may depend on the requests issued before it. *)
Variable server : list Request → Request → Reply.

Definition make_request (m : Method) (u : Endpoint) (token : json)
    (json_data : option Payload) (svc : option string) (e : Engine)
  : option Response * APICall * Engine :=
  let rq := {| rq_method := m; rq_url := u;
               rq_bearer := bearer token;
               rq_json := json_data |} in
  let e' := with_sent (sent e ++ [rq]) e in
  match server (sent e) rq with
  | Answer r elapsed =>
      (Some r,
       {| url := u; method := m; payload := json_data;
          response_code := Some (status_code r);
          response_time := Some elapsed;
          service := svc;
          error := captured_error r |},
       e')
  | Refused msg =>
      (None,
       {| url := u; method := m; payload := json_data;
          response_code := Some 500%Z;
          response_time := None;
          service := svc;
          error := JStr msg |},
       e')
  end.

Definition request (m : Method) (u : Endpoint) (token : json)
    (json_data : option Payload) (svc : string)
  : M (option Response * APICall) := λ s,
  let '(response, call, e') := make_request m u token json_data (Some svc) (snd s) in
  (Next (response, call), (fst s, e')).

(** [add_flow = self.test_add_to_cart()]: a step run from inside another
    step, on the same engine, with a flow of its own. *)
Definition call_step (f : Engine → TestFlow * Engine) : M TestFlow := λ s,
  let '(flow, e') := f (snd s) in (Next flow, (fst s, e')).

(** [flow.result = SKIPPED; flow.root_cause = c; return flow] *)
Definition skip_because (c : RootCause) : M unit :=
  set_result SKIPPED;; set_root_cause c;; return_flow.

(** [flow.result = SKIPPED; return flow] *)
Definition skip : M unit := set_result SKIPPED;; return_flow.

(** *** Authentication flows *)

Definition test_user_registration : Engine → TestFlow * Engine :=
  step "User Registration" "A" (
    try_except (
      '(response, call) ← request POST AuthSignup JNull (Some SignupPayload) "A";
      log call;;
      if has_status response 201 then
        data ← lift (json_of response);
        ok ← lift (py_in_both "access_token" "user" data);
        if ok then set_result PASS
        else (set_result WARNING;;
              set_root_cause (Cause "Missing token or user in response"))
      else fail_with_status call)).

Definition test_user_login (email password role : string)
  : Engine → TestFlow * Engine :=
  step ("User Login (" +:+ role +:+ ")") "A" (
    try_except (
      '(response, call) ← request POST AuthLogin JNull
                             (Some (LoginPayload email password)) "A";
      log call;;
      if has_status response 200 then
        data ← lift (json_of response);
        token ← lift (py_get data "access_token");
        user ← lift (py_get data "user");
        if truthy token && truthy user then
          (if String.eqb role "customer" then
             update (with_customer_token token);;
             id ← lift (py_get user "id");
             update (with_customer_user_id id)
           else
             update (with_admin_token token);;
             id ← lift (py_get user "id");
             update (with_admin_user_id id));;
          set_result PASS
        else (set_result FAIL;;
              set_root_cause (Cause "Missing token or user in response"))
      else fail_with_status call)).

Definition test_get_current_user : Engine → TestFlow * Engine :=
  step "Get Current User" "A" (
    e ← self;
    when (negb (truthy (customer_token e))) (skip_because (Cause "No auth token"));;
    try_except (
      '(response, call) ← request GET AuthMe (customer_token e) None "A";
      log call;;
      if has_status response 200 then
        data ← lift (json_of response);
        ok ← lift (py_in_both "id" "email" data);
        if ok then set_result PASS
        else (set_result WARNING;; set_root_cause (Cause "Incomplete user data"))
      else fail_with_status call)).

Definition test_jwt_expiration_handling : Engine → TestFlow * Engine :=
  step "JWT Expiration Handling" "A" (
    let invalid_token := JStr "invalid.jwt.token" in
    try_except (
      '(response, call) ← request GET AuthMe invalid_token None "A";
      log call;;
      if has_status response 401 then set_result PASS
      else (set_result WARNING;;
            set_root_cause (Cause "Should return 401 for invalid token")))).

(** *** Product catalog flows *)

Definition test_get_categories : Engine → TestFlow * Engine :=
  step "Get Categories" "B" (
    try_except (
      '(response, call) ← request GET CatalogCategories JNull None "B";
      log call;;
      if has_status response 200 then
        data ← lift (json_of response);
        if is_list data then
          set_result PASS;;
          when (truthy data) (
            x ← lift (py_first data);
            id ← lift (py_get x "id");
            update (with_test_category_id id))
        else (set_result WARNING;;
              set_root_cause (Cause "Expected array, got other type"))
      else fail_with_status call)).

Definition test_get_products : Engine → TestFlow * Engine :=
  step "Get Products" "B" (
    try_except (
      '(response, call) ← request GET CatalogProducts JNull None "B";
      log call;;
      if has_status response 200 then
        data ← lift (json_of response);
        if is_list data then
          set_result PASS;;
          when (truthy data) (
            x ← lift (py_first data);
            id ← lift (py_get x "id");
            update (with_test_product_id id))
        else (set_result WARNING;; set_root_cause (Cause "Expected array"))
      else fail_with_status call)).

Definition test_search_products : Engine → TestFlow * Engine :=
  step "Search Products" "B" (
    try_except (
      '(response, call) ← request GET CatalogSearch JNull None "B";
      log call;;
      if has_status response 200 then
        data ← lift (json_of response);
        if is_list data then set_result PASS else set_result WARNING
      else fail_with_status call)).

Definition test_get_product_detail : Engine → TestFlow * Engine :=
  step "Get Product Detail" "B" (
    e ← self;
    when (negb (truthy (test_product_id e)))
      (skip_because (Cause "No product ID available"));;
    try_except (
      '(response, call) ← request GET (CatalogProduct (test_product_id e)) JNull None "B";
      log call;;
      if has_status response 200 then
        data ← lift (json_of response);
        ok ← lift (py_in_both "id" "name" data);
        if ok then set_result PASS else set_result WARNING
      else fail_with_status call)).

(** *** Address flows *)

Definition test_create_address : Engine → TestFlow * Engine :=
  step "Create Address" "A" (
    e ← self;
    when (negb (truthy (customer_token e))) skip;;
    try_except (
      '(response, call) ← request POST Addresses (customer_token e)
                             (Some AddressPayload) "A";
      log call;;
      if has_status response 201 then
        data ← lift (json_of response);
        id ← lift (py_get data "id");
        update (with_test_address_id id);;
        set_result PASS
      else fail_with_status call)).

Definition test_get_addresses : Engine → TestFlow * Engine :=
  step "Get Addresses" "A" (
    e ← self;
    when (negb (truthy (customer_token e))) skip;;
    try_except (
      '(response, call) ← request GET Addresses (customer_token e) None "A";
      log call;;
      if has_status response 200 then
        data ← lift (json_of response);
        if is_list data then set_result PASS else set_result WARNING
      else fail_with_status call)).

(** *** Cart flows *)

Definition test_get_cart : Engine → TestFlow * Engine :=
  step "Get Cart" "A" (
    e ← self;
    when (negb (truthy (customer_token e))) skip;;
    try_except (
      '(response, call) ← request GET Cart (customer_token e) None "A";
      log call;;
      if has_status response 200 then
        data ← lift (json_of response);
        ok ← lift (py_in "items" data);
        if ok then set_result PASS else set_result WARNING
      else fail_with_status call)).

Definition test_add_to_cart : Engine → TestFlow * Engine :=
  step "Add to Cart" "A" (
    e ← self;
    when (negb (truthy (customer_token e)) || negb (truthy (test_product_id e)))
      (skip_because (Cause "Missing token or product ID"));;
    try_except (
      (* the product lookup is issued but not logged *)
      '(product_response, _) ← request GET (CatalogProduct (test_product_id e))
                                  JNull None "B";
      when (negb (has_status product_response 200))
        (skip_because (Cause "Could not fetch product details"));;
      product_data ← lift (json_of product_response);
      variants ← lift (py_get_default product_data "variants" (JArr []));
      when (negb (truthy variants)) (skip_because (Cause "Product has no variants"));;
      variant ← lift (py_first variants);
      sku ← lift (py_get variant "sku");
      variant_id ← lift (py_get variant "id");
      base_price ← lift (py_get_default product_data "base_price" (JInt 0));
      price ← lift (py_get_default variant "price" base_price);
      '(response, call) ← request POST CartItems (customer_token e)
          (Some (CartItemPayload (test_product_id e) variant_id
                   (sku_or_default sku (test_product_id e)) price)) "A";
      log call;;
      if has_status response 201 then
        data ← lift (json_of response);
        items ← lift (py_get_default data "items" (JArr []));
        if truthy items then
          item ← lift (py_last items);
          id ← lift (py_get item "id");
          update (with_test_cart_item_id id);;
          set_result PASS
        else (set_result WARNING;;
              set_root_cause (Cause "Cart item created but not in response"))
      else fail_with_status call)).

Definition test_update_cart_item : Engine → TestFlow * Engine :=
  step "Update Cart Item" "A" (
    e ← self;
    when (negb (truthy (customer_token e)) || negb (truthy (test_cart_item_id e))) skip;;
    try_except (
      '(response, call) ← request PUT (CartItem (test_cart_item_id e))
                             (customer_token e) (Some (QuantityPayload 2)) "A";
      log call;;
      if has_status response 200 then set_result PASS
      else fail_with_status call)).

Definition test_remove_from_cart : Engine → TestFlow * Engine :=
  step "Remove from Cart" "A" (
    e ← self;
    when (negb (truthy (customer_token e)) || negb (truthy (test_cart_item_id e))) skip;;
    try_except (
      '(response, call) ← request DELETE (CartItem (test_cart_item_id e))
                             (customer_token e) None "A";
      log call;;
      if has_status response 200 then set_result PASS
      else fail_with_status call)).

(** *** Checkout flows *)

Definition test_create_payment_intent : Engine → TestFlow * Engine :=
  step "Create Payment Intent" "A" (
    e ← self;
    when (negb (truthy (customer_token e)) || negb (truthy (test_address_id e)))
      (skip_because (Cause "Missing token or address"));;
    (* Ensure cart has items *)
    when (negb (truthy (test_cart_item_id e))) (
      add_flow ← call_step test_add_to_cart;
      when (negb (TestResult_eqb (result add_flow) PASS))
        (skip_because (Cause "Could not add item to cart")));;
    e ← self;
    try_except (
      '(response, call) ← request POST CheckoutCreatePaymentIntent (customer_token e)
          (Some (CheckoutPayload (test_address_id e) (test_address_id e))) "A";
      log call;;
      if has_status response 200 then
        data ← lift (json_of response);
        ok ← lift (py_in_both "client_secret" "order_id" data);
        if ok then
          id ← lift (py_get data "order_id");
          update (with_test_order_id id);;
          set_result PASS
        else (set_result WARNING;;
              set_root_cause (Cause "Missing client_secret or order_id"))
      else fail_with_status call)).

(** *** Order flows *)

Definition test_get_orders : Engine → TestFlow * Engine :=
  step "Get Orders" "A" (
    e ← self;
    when (negb (truthy (customer_token e))) skip;;
    try_except (
      '(response, call) ← request GET Orders (customer_token e) None "A";
      log call;;
      if has_status response 200 then
        data ← lift (json_of response);
        if is_list data then set_result PASS else set_result WARNING
      else fail_with_status call)).

Definition test_get_order_detail : Engine → TestFlow * Engine :=
  step "Get Order Detail" "A" (
    e ← self;
    when (negb (truthy (customer_token e)) || negb (truthy (test_order_id e))) skip;;
    try_except (
      '(response, call) ← request GET (Order (test_order_id e))
                             (customer_token e) None "A";
      log call;;
      if has_status response 200 then
        data ← lift (json_of response);
        ok ← lift (py_in_both "id" "order_number" data);
        if ok then set_result PASS else set_result WARNING
      else fail_with_status call)).

(** *** Admin flows *)

Definition test_admin_create_category : Engine → TestFlow * Engine :=
  step "Admin Create Category" "B" (
    e ← self;
    when (negb (truthy (admin_token e))) skip;;
    try_except (
      '(response, call) ← request POST CatalogAdminCategories (admin_token e)
                             (Some CategoryPayload) "B";
      log call;;
      if has_status response 201 then
        data ← lift (json_of response);
        ok ← lift (py_in "id" data);
        if ok then set_result PASS else set_result WARNING
      else fail_with_status call)).

Definition test_admin_update_order_status : Engine → TestFlow * Engine :=
  step "Admin Update Order Status" "A" (
    e ← self;
    when (negb (truthy (admin_token e)) || negb (truthy (test_order_id e)))
      (skip_because (Cause "Missing admin token or order ID"));;
    try_except (
      '(response, call) ← request POST (OrderStatus (test_order_id e))
                             (admin_token e) (Some (StatusPayload "packed")) "A";
      log call;;
      if has_status response 200 then
        data ← lift (json_of response);
        status ← lift (py_get data "status");
        if is_str "packed" status then set_result PASS
        else (set_result WARNING;;
              set_root_cause (Cause "Status not updated correctly"))
      else fail_with_status call)).

Definition test_admin_get_all_orders : Engine → TestFlow * Engine :=
  step "Admin Get All Orders" "A" (
    e ← self;
    when (negb (truthy (admin_token e))) skip;;
    try_except (
      '(response, call) ← request GET OrdersAdminAll (admin_token e) None "A";
      log call;;
      if has_status response 200 then
        data ← lift (json_of response);
        if is_list data then set_result PASS else set_result WARNING
      else fail_with_status call)).

(** *** Inventory flows *)

Definition test_get_inventory : Engine → TestFlow * Engine :=
  step "Get Inventory" "B" (
    e ← self;
    when (negb (truthy (test_product_id e)))
      (skip_because (Cause "No product ID available"));;
    try_except (
      '(product_response, _) ← request GET (CatalogProduct (test_product_id e))
                                  JNull None "B";
      when (negb (has_status product_response 200)) skip;;
      product_data ← lift (json_of product_response);
      variants ← lift (py_get_default product_data "variants" (JArr []));
      when (negb (truthy variants)) (skip_because (Cause "Product has no variants"));;
      variant ← lift (py_first variants);
      sku ← lift (py_get variant "sku");
      '(response, call) ← request GET
          (Inventory (sku_or_default sku (test_product_id e))) JNull None "B";
      log call;;
      if has_status response 200 then
        data ← lift (json_of response);
        ok ← lift (py_in_both "quantity" "available" data);
        if ok then set_result PASS else set_result WARNING
      else fail_with_status call)).

Definition test_reserve_inventory : Engine → TestFlow * Engine :=
  step "Reserve Inventory" "B" (
    e ← self;
    when (negb (truthy (test_product_id e))) skip;;
    try_except (
      '(product_response, _) ← request GET (CatalogProduct (test_product_id e))
                                  JNull None "B";
      when (negb (has_status product_response 200)) skip;;
      product_data ← lift (json_of product_response);
      variants ← lift (py_get_default product_data "variants" (JArr []));
      when (negb (truthy variants)) skip;;
      variant ← lift (py_first variants);
      sku ← lift (py_get variant "sku");
      '(response, call) ← request POST InventoryReserve JNull
          (Some (ReservePayload (sku_or_default sku (test_product_id e))
                   (py_or (test_order_id e) (JInt 999)))) "B";
      log call;;
      if has_status response 200 then
        data ← lift (json_of response);
        ok ← lift (py_get data "success");
        if truthy ok then set_result PASS
        else (set_result WARNING;;
              message ← lift (py_get_default data "message" (JStr "Reservation failed"));
              set_root_cause (CauseValue message))
      else fail_with_status call)).

(** *** Notification flows *)

Definition test_notification_service : Engine → TestFlow * Engine :=
  step "Notification Service" "C" (
    try_except (
      '(response, call) ← request POST Notify JNull (Some NotifyPayload) "C";
      log call;;
      if has_status response 200 then set_result PASS
      else (set_result WARNING;; set_root_cause (status_cause call)))).

(** *** Stores and reviews *)

Definition test_get_stores : Engine → TestFlow * Engine :=
  step "Get Stores" "B" (
    try_except (
      '(response, call) ← request GET Stores JNull None "B";
      log call;;
      if has_status response 200 then
        data ← lift (json_of response);
        if is_list data then set_result PASS else set_result WARNING
      else fail_with_status call)).

Definition test_get_nearby_stores : Engine → TestFlow * Engine :=
  step "Get Nearby Stores" "B" (
    try_except (
      '(response, call) ← request GET StoresNearby JNull None "B";
      log call;;
      if has_status response 200 then
        data ← lift (json_of response);
        if is_list data then set_result PASS else set_result WARNING
      else fail_with_status call)).

Definition test_get_product_reviews : Engine → TestFlow * Engine :=
  step "Get Product Reviews" "B" (
    e ← self;
    when (negb (truthy (test_product_id e))) skip;;
    try_except (
      '(response, call) ← request GET (ReviewsProduct (test_product_id e))
                             JNull None "B";
      log call;;
      if has_status response 200 then
        data ← lift (json_of response);
        if is_list data then set_result PASS else set_result WARNING
      else fail_with_status call)).

(** *** Cross-service validation *)

Definition test_cross_service_cart_order_flow : Engine → TestFlow * Engine :=
  step "Cross-Service: Product ‚Üí Cart ‚Üí Order" "A+B" (
    e ← self;
    when (negb (truthy (customer_token e)) || negb (truthy (test_address_id e))) skip;;
    try_except (
      (* Step 1: Get product from Service B *)
      '(product_response, call1) ← request GET (CatalogProduct (test_product_id e))
                                      JNull None "B";
      log call1;;
      when (negb (has_status product_response 200)) (
        set_result FAIL;; set_root_cause (Cause "Failed to get product");;
        return_flow);;
      product_data ← lift (json_of product_response);
      variants ← lift (py_get_default product_data "variants" (JArr []));
      when (negb (truthy variants)) (skip_because (Cause "Product has no variants"));;
      variant ← lift (py_first variants);
      sku ← lift (py_get variant "sku");
      (* Step 2: Add to cart (Service A) *)
      variant_id ← lift (py_get variant "id");
      base_price ← lift (py_get_default product_data "base_price" (JInt 0));
      price ← lift (py_get_default variant "price" base_price);
      '(cart_response, call2) ← request POST CartItems (customer_token e)
          (Some (CartItemPayload (test_product_id e) variant_id
                   (sku_or_default sku (test_product_id e)) price)) "A";
      log call2;;
      when (negb (has_status cart_response 201)) (
        set_result FAIL;; set_root_cause (Cause "Failed to add to cart");;
        return_flow);;
      (* Step 3: Create order (Service A) *)
      '(order_response, call3) ← request POST CheckoutCreatePaymentIntent
          (customer_token e)
          (Some (CheckoutPayload (test_address_id e) (test_address_id e))) "A";
      log call3;;
      if has_status order_response 200 then
        order_data ← lift (json_of order_response);
        ok ← lift (py_in "order_id" order_data);
        if ok then set_result PASS
        else (set_result WARNING;;
              set_root_cause (Cause "Order created but missing order_id"))
      else (set_result FAIL;;
            set_root_cause (if truthy (error call3) then CauseValue (error call3)
                            else Cause "Failed to create order")))).

(** *** The run *)

Definition CUSTOMER_EMAIL : string := "alice@example.com".
Definition CUSTOMER_PASSWORD : string := "Alice@123".
Definition ADMIN_EMAIL : string := "admin@example.com".
Definition ADMIN_PASSWORD : string := "Admin@123".

(** [self.report.add_flow(step())] *)
Definition recorded (f : Engine → TestFlow * Engine) (e : Engine) : Engine :=
  let '(flow, e') := f e in with_report (add_flow flow (report e')) e'.

(** [step()] with the returned flow dropped. *)
Definition unrecorded (f : Engine → TestFlow * Engine) (e : Engine) : Engine :=
  snd (f e).

Definition run_all_tests (e : Engine) : Engine :=
  (* Authentication Flows *)
  let e := recorded test_user_registration e in
  let e := recorded (test_user_login CUSTOMER_EMAIL CUSTOMER_PASSWORD "customer") e in
  let e := recorded (test_user_login ADMIN_EMAIL ADMIN_PASSWORD "admin") e in
  let e := recorded test_get_current_user e in
  let e := recorded test_jwt_expiration_handling e in
  (* Product Catalog Flows *)
  let e := recorded test_get_categories e in
  let e := recorded test_get_products e in
  let e := recorded test_search_products e in
  let e := recorded test_get_product_detail e in
  (* Address Flows *)
  let e := recorded test_create_address e in
  let e := recorded test_get_addresses e in
  (* Cart Flows *)
  let e := recorded test_get_cart e in
  let e := recorded test_add_to_cart e in
  let e := recorded test_update_cart_item e in
  let e := recorded test_remove_from_cart e in
  (* Re-add item for checkout *)
  let e := unrecorded test_add_to_cart e in
  (* Checkout Flows *)
  let e := recorded test_create_payment_intent e in
  (* Order Flows *)
  let e := recorded test_get_orders e in
  let e := recorded test_get_order_detail e in
  (* Admin Flows *)
  let e := recorded test_admin_create_category e in
  let e := recorded test_admin_update_order_status e in
  let e := recorded test_admin_get_all_orders e in
  (* Inventory Flows *)
  let e := recorded test_get_inventory e in
  let e := recorded test_reserve_inventory e in
  (* Notification Flows *)
  let e := recorded test_notification_service e in
  (* Stores & Reviews *)
  let e := recorded test_get_stores e in
  let e := recorded test_get_nearby_stores e in
  let e := recorded test_get_product_reviews e in
  (* Cross-Service Flows *)
  recorded test_cross_service_cart_order_flow e.

End Steps.

(** ** Vocabulary of the statements *)

(** The three counters the health table keeps for a service. *)
Definition counters (m : gmap string ServiceHealth) (s : string)
  : option (nat * nat * nat) :=
  (λ h, (total h, success h, failures h)) <$> m !! s.

(** One more call, successful or not. *)
Definition bump (ok : bool) (c : nat * nat * nat) : nat * nat * nat :=
  let '(t, s, f) := c in
  (S t, if ok then S s else s, if ok then f else S f).

(** Two health tables with the same counters for every service. *)
Definition same_counters (m1 m2 : gmap string ServiceHealth) : Prop :=
  ∀ s, counters m1 s = counters m2 s.

(** Recording a list of calls, first to last. *)
Definition record_all (calls : list APICall) (m : gmap string ServiceHealth)
  : gmap string ServiceHealth :=
  fold_left (λ m c, record c m) calls m.

(** [log_api_call] over a list of calls, first to last. *)
Definition log_calls (calls : list APICall) (flow : TestFlow) (e : Engine)
  : TestFlow * Engine :=
  fold_left (λ s c, log_api_call c (fst s) (snd s)) calls (flow, e).

Definition balanced (h : ServiceHealth) : Prop :=
  total h = success h + failures h.

Definition health_balanced (m : gmap string ServiceHealth) : Prop :=
  ∀ s h, m !! s = Some h → balanced h.

(** The health table's total for a service; a service never seen has none. *)
Definition calls_to (m : gmap string ServiceHealth) (s : string) : nat :=
  match m !! s with Some h => total h | None => 0 end.

Definition tagged_with (s : string) (c : APICall) : bool :=
  match service c with Some s' => String.eqb s' s | None => false end.

(** The number of call records tagged with [s] in a list of calls, and
    summed over the calls of a list of flows. *)
Definition tagged (s : string) (calls : list APICall) : nat :=
  length (filter (λ c, tagged_with s c = true) calls).

Definition tagged_in_flows (s : string) (fs : list TestFlow) : nat :=
  tagged s (concat (map apis fs)).

(** The number of flows whose result is PASS, counted flow by flow. *)
Fixpoint passed_flows (fs : list TestFlow) : nat :=
  match fs with
  | [] => 0
  | f :: fs' =>
      match result f with
      | PASS => S (passed_flows fs')
      | _ => passed_flows fs'
      end
  end.

(** The percentage [100 * p / t] rounded to one decimal in exact arithmetic,
    ties to even: the reading of "[passed/total] as a percentage with one
    decimal place" that involves no binary64 rounding. *)
Definition exact_tenths (p t : Z) : Z :=
  let n := (1000 * p)%Z in
  let q := (n / t)%Z in
  let r := (n mod t)%Z in
  if (2 * r <? t)%Z then q
  else if (t <? 2 * r)%Z then (q + 1)%Z
  else if Z.even q then q else (q + 1)%Z.

Definition exact_rate (p t : nat) : string :=
  let x := exact_tenths (Z.of_nat p) (Z.of_nat t) in
  NilZero.string_of_int (Z.to_int (x / 10)) +:+ "."
  +:+ NilZero.string_of_int (Z.to_int (x mod 10)) +:+ "%".

Definition rates_agree (p t : nat) : bool :=
  match rate_percent p t with
  | Ok s => String.eqb s (exact_rate p t)
  | Raise _ => false
  end.

Definition rates_agree_upto (n : nat) : bool :=
  forallb (λ t, forallb (λ p, rates_agree p t) (seq 0 (S t))) (seq 1 n).

(** A report of eighty flows of which twenty-three passed. *)
Definition report_23_of_80 : QAReport :=
  {| flows := repeat (with_flow_result PASS (new_flow "Get Stores" "B")) 23
              ++ repeat (with_flow_result FAIL (new_flow "Get Stores" "B")) 57;
     api_health := ∅ |}.

(** ** Steps by name *)

Inductive Step : Type :=
  | UserRegistration
  | UserLogin (email password role : string)
  | GetCurrentUser
  | JwtExpirationHandling
  | GetCategories | GetProducts | SearchProducts | GetProductDetail
  | CreateAddress | GetAddresses
  | GetCart | AddToCart | UpdateCartItem | RemoveFromCart
  | CreatePaymentIntent
  | GetOrders | GetOrderDetail
  | AdminCreateCategory | AdminUpdateOrderStatus | AdminGetAllOrders
  | GetInventory | ReserveInventory
  | NotificationService
  | GetStores | GetNearbyStores | GetProductReviews
  | CrossServiceCartOrderFlow.

Definition perform (server : list Request → Request → Reply) (st : Step)
  : Engine → TestFlow * Engine :=
  match st with
  | UserRegistration => test_user_registration server
  | UserLogin email password role => test_user_login server email password role
  | GetCurrentUser => test_get_current_user server
  | JwtExpirationHandling => test_jwt_expiration_handling server
  | GetCategories => test_get_categories server
  | GetProducts => test_get_products server
  | SearchProducts => test_search_products server
  | GetProductDetail => test_get_product_detail server
  | CreateAddress => test_create_address server
  | GetAddresses => test_get_addresses server
  | GetCart => test_get_cart server
  | AddToCart => test_add_to_cart server
  | UpdateCartItem => test_update_cart_item server
  | RemoveFromCart => test_remove_from_cart server
  | CreatePaymentIntent => test_create_payment_intent server
  | GetOrders => test_get_orders server
  | GetOrderDetail => test_get_order_detail server
  | AdminCreateCategory => test_admin_create_category server
  | AdminUpdateOrderStatus => test_admin_update_order_status server
  | AdminGetAllOrders => test_admin_get_all_orders server
  | GetInventory => test_get_inventory server
  | ReserveInventory => test_reserve_inventory server
  | NotificationService => test_notification_service server
  | GetStores => test_get_stores server
  | GetNearbyStores => test_get_nearby_stores server
  | GetProductReviews => test_get_product_reviews server
  | CrossServiceCartOrderFlow => test_cross_service_cart_order_flow server
  end.

(** The sequence of [run_all_tests]: each step with whether its flow is
    added to the report. *)
Definition schedule : list (bool * Step) :=
  [ (true, UserRegistration);
    (true, UserLogin CUSTOMER_EMAIL CUSTOMER_PASSWORD "customer");
    (true, UserLogin ADMIN_EMAIL ADMIN_PASSWORD "admin");
    (true, GetCurrentUser);
    (true, JwtExpirationHandling);
    (true, GetCategories);
    (true, GetProducts);
    (true, SearchProducts);
    (true, GetProductDetail);
    (true, CreateAddress);
    (true, GetAddresses);
    (true, GetCart);
    (true, AddToCart);
    (true, UpdateCartItem);
    (true, RemoveFromCart);
    (false, AddToCart);
    (true, CreatePaymentIntent);
    (true, GetOrders);
    (true, GetOrderDetail);
    (true, AdminCreateCategory);
    (true, AdminUpdateOrderStatus);
    (true, AdminGetAllOrders);
    (true, GetInventory);
    (true, ReserveInventory);
    (true, NotificationService);
    (true, GetStores);
    (true, GetNearbyStores);
    (true, GetProductReviews);
    (true, CrossServiceCartOrderFlow) ].

(** One entry of the schedule: the step runs and its flow is kept or
    dropped. *)
Definition run_entry (server : list Request → Request → Reply)
    (p : bool * Step) (e : Engine) : Engine :=
  if p.1 then recorded (perform server p.2) e
  else unrecorded (perform server p.2) e.

Definition run_schedule (server : list Request → Request → Reply)
    (steps : list (bool * Step)) (e : Engine) : Engine :=
  fold_left (λ e p, run_entry server p e) steps e.

(** The session-state fields a step tests before it does anything else. *)
Definition guard (st : Step) : list (Engine → json) :=
  match st with
  | GetCurrentUser | CreateAddress | GetAddresses | GetCart | GetOrders =>
      [customer_token]
  | GetProductDetail | GetInventory | ReserveInventory | GetProductReviews =>
      [test_product_id]
  | AddToCart => [customer_token; test_product_id]
  | UpdateCartItem | RemoveFromCart => [customer_token; test_cart_item_id]
  | CreatePaymentIntent | CrossServiceCartOrderFlow =>
      [customer_token; test_address_id]
  | GetOrderDetail => [customer_token; test_order_id]
  | AdminCreateCategory | AdminGetAllOrders => [admin_token]
  | AdminUpdateOrderStatus => [admin_token; test_order_id]
  | _ => []
  end.

(** A call record that carries a status of 400 or more (the sentinel 500 of
    a transport failure included). *)
Definition error_status (c : APICall) : bool :=
  match response_code c with
  | Some code => (400 <=? code)%Z
  | None => false
  end.

(** The payment-intent step runs add-to-cart inline when its guard passes
    and no cart-item id is tracked. *)
Definition repairs_cart (e : Engine) : bool :=
  truthy (customer_token e) && truthy (test_address_id e)
  && negb (truthy (test_cart_item_id e)).

(** The flows a step builds by running another step inline; they are not
    returned to the caller. *)
Definition inline_flows (server : list Request → Request → Reply) (st : Step)
    (e : Engine) : list TestFlow :=
  match st with
  | CreatePaymentIntent =>
      if repairs_cart e then [(test_add_to_cart server e).1] else []
  | _ => []
  end.

(** The flows built during a run that do not reach the report: those of
    the steps executed without [add_flow] and those built inline. *)
Fixpoint unrecorded_flows (server : list Request → Request → Reply)
    (steps : list (bool * Step)) (e : Engine) : list TestFlow :=
  match steps with
  | [] => []
  | p :: rest =>
      (if p.1 then [] else [(perform server p.2 e).1])
      ++ inline_flows server p.2 e
      ++ unrecorded_flows server rest (run_entry server p e)
  end.

(** A step accounts for its calls: the health totals grow by the calls of
    the flow it returns and of the flows it builds inline. *)
Definition step_accounts (server : list Request → Request → Reply) (st : Step) : Prop :=
  ∀ e s,
    flows (report (perform server st e).2) = flows (report e) ∧
    calls_to (api_health (report (perform server st e).2)) s
    = calls_to (api_health (report e)) s
      + tagged s (apis (perform server st e).1)
      + tagged_in_flows s (inline_flows server st e).

(** The health totals are the calls of the recorded flows plus [hidden]. *)
Definition accounted (hidden : string → nat) (e : Engine) : Prop :=
  ∀ s, calls_to (api_health (report e)) s
       = tagged_in_flows s (flows (report e)) + hidden s.

(** At most one unrecorded add-to-cart flow per entry of the schedule. *)
Definition slack (p : bool * Step) : nat :=
  match p with
  | (false, _) => 1
  | (true, CreatePaymentIntent) => 1
  | (true, _) => 0
  end.

Definition kept_or_add_to_cart (p : bool * Step) : Prop :=
  p.1 = true ∨ p.2 = AddToCart.

(** ** A cooperative platform, for concrete runs *)

Definition reply (code : Z) (d : json) : Reply :=
  Answer {| status_code := code; body := Some d; text := "" |} (PyFloat.of_int 1).

Definition product_7 : json :=
  JObj [("id", JInt 7); ("name", JStr "Mug");
        ("variants", JArr [JObj [("id", JInt 3); ("sku", JStr "MUG-1")]])].

Definition platform (_ : list Request) (rq : Request) : Reply :=
  match rq_url rq, rq_method rq with
  | AuthSignup, _ =>
      reply 201 (JObj [("access_token", JStr "new"); ("user", JObj [("id", JInt 2)])])
  | AuthLogin, _ =>
      reply 200 (JObj [("access_token", JStr "tok"); ("user", JObj [("id", JInt 1)])])
  | AuthMe, _ =>
      match rq_bearer rq with
      | Some (JStr "tok") => reply 200 (JObj [("id", JInt 1); ("email", JStr "a@b")])
      | _ => reply 401 (JObj [("detail", JStr "Could not validate credentials")])
      end
  | CatalogProducts, _ => reply 200 (JArr [JObj [("id", JInt 7)]])
  | CatalogProduct _, _ => reply 200 product_7
  | CartItems, _ => reply 201 (JObj [("items", JArr [JObj [("id", JInt 11)]])])
  | Addresses, POST => reply 201 (JObj [("id", JInt 5)])
  | CheckoutCreatePaymentIntent, _ =>
      reply 200 (JObj [("client_secret", JStr "cs"); ("order_id", JInt 9)])
  | _, _ => reply 200 (JArr [])
  end.

(** ** Weakest preconditions of step bodies *)

(** [wp m Q flow e]: running [m] on [flow] and [e] ends in a control
    outcome, a flow and an engine that satisfy [Q]. *)
Definition wp {A} (m : M A) (Q : ctl A → TestFlow → Engine → Prop)
    (flow : TestFlow) (e : Engine) : Prop :=
  Q (m (flow, e)).1 (m (flow, e)).2.1 (m (flow, e)).2.2.

(** The first request of a [make_request] and the two call records it can
    return. *)
Definition request_of (m : Method) (u : Endpoint) (token : json)
    (json_data : option Payload) : Request :=
  {| rq_method := m; rq_url := u; rq_bearer := bearer token; rq_json := json_data |}.

Definition answered (m : Method) (u : Endpoint) (json_data : option Payload)
    (svc : string) (r : Response) (elapsed : SpecFloat.spec_float) : APICall :=
  {| url := u; method := m; payload := json_data;
     response_code := Some (status_code r); response_time := Some elapsed;
     service := Some svc; error := captured_error r |}.

Definition refused (m : Method) (u : Endpoint) (json_data : option Payload)
    (svc : string) (msg : string) : APICall :=
  {| url := u; method := m; payload := json_data;
     response_code := Some 500%Z; response_time := None;
     service := Some svc; error := JStr msg |}.

(** How each step classifies a logged call that carries an error status. *)
Definition classify_error (st : Step) (c : APICall) : TestResult :=
  match st with
  | NotificationService => WARNING
  | JwtExpirationHandling =>
      match response_code c with
      | Some code => if (code =? 401)%Z then PASS else WARNING
      | None => WARNING
      end
  | _ => FAIL
  end.

Definition invalid_token_request : Request :=
  request_of GET AuthMe (JStr "invalid.jwt.token") None.

Definition login_request (email password : string) : Request :=
  request_of POST AuthLogin JNull (Some (LoginPayload email password)).

Definition product_request (e : Engine) : Request :=
  request_of GET (CatalogProduct (test_product_id e)) JNull None.

(** The cart-add body the cross-service step builds from the fields [d] of
    the product and the fields [v] of its first variant. *)
Definition chain_cart_payload (e : Engine) (d v : list (string * json)) : Payload :=
  CartItemPayload (test_product_id e)
    (default JNull (assoc "id" v))
    (sku_or_default (default JNull (assoc "sku" v)) (test_product_id e))
    (default (default (JInt 0) (assoc "base_price" d)) (assoc "price" v)).

(** A cart-add request of the session: it carries the customer token. *)
Definition cart_request (e : Engine) (p : Payload) : Request :=
  request_of POST CartItems (customer_token e) (Some p).

(** The payment-intent request of the session: it carries the customer token
    and names the session's address for shipping and billing. *)
Definition checkout_request (e : Engine) : Request :=
  request_of POST CheckoutCreatePaymentIntent (customer_token e)
    (Some (CheckoutPayload (test_address_id e) (test_address_id e))).

(** A reply that is a response with the given status. *)
Definition replied (code : Z) (a : Reply) : bool :=
  match a with
  | Answer r _ => (status_code r =? code)%Z
  | Refused _ => false
  end.

(** A reply to the payment-intent request that creates an order: status 200
    and a decoded body that contains ["order_id"]. *)
Definition order_created (a : Reply) : bool :=
  match a with
  | Answer r _ =>
      (status_code r =? 200)%Z &&
      match body r with
      | Some d => match py_in "order_id" d with Ok true => true | _ => false end
      | None => false
      end
  | Refused _ => false
  end.

(** A reply to the product request with status 200 whose body is a product
    with fields [d] and a first variant with fields [v]. *)
Definition product_with_variant (a : Reply) (d v : list (string * json)) : Prop :=
  ∃ r t vs, a = Answer r t ∧ status_code r = 200%Z ∧ body r = Some (JObj d) ∧
            assoc "variants" d = Some (JArr (JObj v :: vs)).

Definition kinds (l : list Request) : list (Method * Endpoint) :=
  map (λ rq, (rq_method rq, rq_url rq)) l.

Definition call_kinds (l : list APICall) : list (Method * Endpoint) :=
  map (λ c, (method c, url c)) l.

(** An engine that has logged in, listed the products and created an
    address, and holds no cart item and no order. *)
Definition shopper : Engine :=
  with_test_product_id (JInt 7)
    (with_test_address_id (JInt 5)
       (with_customer_token (JStr "tok") new_engine)).

(** A platform whose every reply is the given status and body. *)
Definition always (code : Z) (d : json) (_ : list Request) (_ : Request) : Reply :=
  reply code d.

(** ** Vocabulary of the step and run properties *)

(** The name a step gives to its flow. *)
Definition step_name (st : Step) : string :=
  match st with
  | UserRegistration => "User Registration"
  | UserLogin _ _ role => "User Login (" +:+ role +:+ ")"
  | GetCurrentUser => "Get Current User"
  | JwtExpirationHandling => "JWT Expiration Handling"
  | GetCategories => "Get Categories"
  | GetProducts => "Get Products"
  | SearchProducts => "Search Products"
  | GetProductDetail => "Get Product Detail"
  | CreateAddress => "Create Address"
  | GetAddresses => "Get Addresses"
  | GetCart => "Get Cart"
  | AddToCart => "Add to Cart"
  | UpdateCartItem => "Update Cart Item"
  | RemoveFromCart => "Remove from Cart"
  | CreatePaymentIntent => "Create Payment Intent"
  | GetOrders => "Get Orders"
  | GetOrderDetail => "Get Order Detail"
  | AdminCreateCategory => "Admin Create Category"
  | AdminUpdateOrderStatus => "Admin Update Order Status"
  | AdminGetAllOrders => "Admin Get All Orders"
  | GetInventory => "Get Inventory"
  | ReserveInventory => "Reserve Inventory"
  | NotificationService => "Notification Service"
  | GetStores => "Get Stores"
  | GetNearbyStores => "Get Nearby Stores"
  | GetProductReviews => "Get Product Reviews"
  | CrossServiceCartOrderFlow => "Cross-Service: Product ‚Üí Cart ‚Üí Order"
  end.

(** The names of the flows of a report, in the order of [run_all_tests]. *)
Definition report_names : list string :=
  [ "User Registration"; "User Login (customer)"; "User Login (admin)";
    "Get Current User"; "JWT Expiration Handling";
    "Get Categories"; "Get Products"; "Search Products"; "Get Product Detail";
    "Create Address"; "Get Addresses";
    "Get Cart"; "Add to Cart"; "Update Cart Item"; "Remove from Cart";
    "Create Payment Intent";
    "Get Orders"; "Get Order Detail";
    "Admin Create Category"; "Admin Update Order Status"; "Admin Get All Orders";
    "Get Inventory"; "Reserve Inventory";
    "Notification Service";
    "Get Stores"; "Get Nearby Stores"; "Get Product Reviews";
    "Cross-Service: Product ‚Üí Cart ‚Üí Order" ].

(** The most requests a step hands to the client. *)
Definition max_requests (st : Step) : nat :=
  match st with
  | AddToCart | GetInventory | ReserveInventory => 2
  | CreatePaymentIntent | CrossServiceCartOrderFlow => 3
  | _ => 1
  end.

(** The status a step's last call must carry for the step to pass. *)
Definition expected_status (st : Step) : Z :=
  match st with
  | UserRegistration | CreateAddress | AddToCart | AdminCreateCategory => 201
  | JwtExpirationHandling => 401
  | _ => 200
  end.

(** The fields of the session state. *)
Inductive Field : Type :=
  | CustomerToken | AdminToken | CustomerUserId | AdminUserId
  | AddressId | ProductId | CategoryId | OrderId | CartItemId.

Definition field (f : Field) (e : Engine) : json :=
  match f with
  | CustomerToken => customer_token e
  | AdminToken => admin_token e
  | CustomerUserId => customer_user_id e
  | AdminUserId => admin_user_id e
  | AddressId => test_address_id e
  | ProductId => test_product_id e
  | CategoryId => test_category_id e
  | OrderId => test_order_id e
  | CartItemId => test_cart_item_id e
  end.

(** The fields a step assigns to. *)
Definition writes (st : Step) : list Field :=
  match st with
  | UserLogin _ _ role =>
      if String.eqb role "customer" then [CustomerToken; CustomerUserId]
      else [AdminToken; AdminUserId]
  | GetCategories => [CategoryId]
  | GetProducts => [ProductId]
  | CreateAddress => [AddressId]
  | AddToCart => [CartItemId]
  | CreatePaymentIntent => [CartItemId; OrderId]
  | _ => []
  end.

(** The calls of a list that are tagged with [s] and carry a 2xx status. *)
Definition succeeded (s : string) (calls : list APICall) : nat :=
  length (filter (λ c, tagged_with s c && is_2xx (response_code c) = true) calls).

(** The latencies a list of calls contributes to the entry of [s]. *)
Definition measured_for (s : string) (calls : list APICall) : list spec_float :=
  omap (λ c, if tagged_with s c then measured (response_time c) else None) calls.

(** An entry's average is the mean of its latencies, and zero before the
    first latency. *)
Definition mean_kept (h : ServiceHealth) : Prop :=
  avg_latency h =
    match latencies h with
    | [] => S754_zero false
    | l => PyFloat.div (PyFloat.sum l) (PyFloat.of_int (Z.of_nat (length l)))
    end.

(** All the calls a step logs, those of the flow it builds inline first. *)
Definition logged (server : list Request → Request → Reply) (st : Step)
    (e : Engine) : list APICall :=
  concat (map apis (inline_flows server st e)) ++ apis (perform server st e).1.

(** What a step's failure text may be: never empty. *)
Definition explained (c : RootCause) : bool :=
  match c with
  | NoCause => false
  | Cause text => negb (String.eqb text "")
  | CauseValue v => truthy v
  | CauseStatus _ => true
  | CauseException _ => true
  end.

(** The tag of a call is one of the three services. *)
Definition service_tag (c : APICall) : Prop :=
  tag c = Some "A" ∨ tag c = Some "B" ∨ tag c = Some "C".

(** What every entry of a health table built by steps satisfies. *)
Definition sound_entry (s : string) (h : ServiceHealth) : Prop :=
  (s = "A" ∨ s = "B" ∨ s = "C") ∧
  total h = success h + failures h ∧
  0 < total h ∧
  length (latencies h) ≤ total h ∧
  mean_kept h.

Definition sound_health (m : gmap string ServiceHealth) : Prop :=
  ∀ s h, m !! s = Some h → sound_entry s h.

(** The names of the flows whose steps test the customer token on entry. *)
Definition customer_flows : list string :=
  [ "Get Current User"; "Create Address"; "Get Addresses"; "Get Cart";
    "Add to Cart"; "Update Cart Item"; "Remove from Cart";
    "Create Payment Intent"; "Get Orders"; "Get Order Detail";
    "Cross-Service: Product ‚Üí Cart ‚Üí Order" ].

(** ** The report aggregator *)

Lemma count_result_le r fs : count_result r fs ≤ length fs.
Proof. unfold count_result. apply length_filter. Qed.

Lemma count_result_partition fs :
  length fs = count_result PASS fs + count_result FAIL fs
              + count_result WARNING fs + count_result SKIPPED fs.
Proof.
  unfold count_result. induction fs as [|f fs IH]; [done|].
  rewrite !filter_cons. simpl length. rewrite IH.
  destruct (result f); simpl;
    repeat (case_decide; try discriminate; try congruence); simpl; lia.
Qed.

Lemma truediv_nonzero (a b : Z) :
  b ≠ 0%Z →
  PyFloat.truediv a b = Ok (PyFloat.div (PyFloat.of_int a) (PyFloat.of_int b)).
Proof. intros Hb. unfold PyFloat.truediv. by destruct (Z.eqb_spec b 0). Qed.

(** Every flow is counted under exactly one outcome. *)
Lemma get_summary_counts (r : QAReport) (s : Summary) :
  get_summary r = Ok s →
  summary_total s = passed s + failed s + warnings s + skipped s.
Proof.
  unfold get_summary.
  destruct (if (0 <? _)%nat then _ else _); [|done].
  intros [= <-]. simpl. apply count_result_partition.
Qed.

Lemma rates_agree_upto_spec (n t p : nat) :
  rates_agree_upto n = true → 0 < t → t ≤ n → p ≤ t → rates_agree p t = true.
Proof.
  unfold rates_agree_upto. intros H H0 Hn Hp.
  rewrite forallb_forall in H.
  assert (Ht : In t (seq 1 n)) by (apply in_seq; lia).
  specialize (H t Ht). rewrite forallb_forall in H.
  apply H, in_seq. lia.
Qed.

Lemma rates_agree_below_80 : rates_agree_upto 79 = true.
Proof. vm_compute. reflexivity. Qed.

(** Up to 79 recorded flows the printed rate is the exactly rounded one. *)
Lemma rate_percent_exact (p t : nat) :
  0 < t → t < 80 → p ≤ t → rate_percent p t = Ok (exact_rate p t).
Proof.
  intros H0 H80 Hp.
  assert (H : rates_agree p t = true).
  { apply (rates_agree_upto_spec 79); [exact rates_agree_below_80|lia..]. }
  unfold rates_agree in H.
  destruct (rate_percent p t) as [s|]; [|done].
  apply String.eqb_eq in H. by subst.
Qed.

(** The aggregator's count of passed flows is the number of flows whose
    result is PASS. *)
Lemma passed_flows_count fs : count_result PASS fs = passed_flows fs.
Proof.
  unfold count_result. induction fs as [|f fs IH]; [done|].
  rewrite filter_cons. cbn [passed_flows]. rewrite <- IH.
  by destruct (result f); case_decide.
Qed.

(** [exact_tenths p t] is a tenth of a percent nearest to [100 * p / t]:
    it is off by at most half a tenth. *)
Lemma exact_tenths_nearest (p t : Z) :
  (0 < t)%Z → (0 ≤ p)%Z →
  (2 * Z.abs (exact_tenths p t * t - 1000 * p) ≤ t)%Z.
Proof.
  intros Ht Hp. unfold exact_tenths.
  pose proof (Z.div_mod (1000 * p) t) as Hdiv.
  pose proof (Z.mod_pos_bound (1000 * p) t Ht) as Hmod.
  set (q := (1000 * p / t)%Z) in *. set (m := (1000 * p mod t)%Z) in *.
  assert (Hn : (1000 * p = q * t + m)%Z) by lia.
  destruct (Z.ltb_spec (2 * m) t); [lia|].
  destruct (Z.ltb_spec t (2 * m)); [lia|].
  destruct (Z.even q); lia.
Qed.

(** C1, as binary64 rounds.  The summary never fails and counts as passed
    the flows whose result is PASS, never more than the total.  Its success
    rate is the text "0%" when no flow was recorded; with fewer than eighty
    flows it is the percentage of passed flows rounded to the nearest tenth
    (ties to even) in exact arithmetic; from eighty flows on it is the
    binary64 value of [passed / total * 100] printed with one decimal, which
    need not be the exactly rounded percentage. *)
Theorem get_summary_success_rate (r : QAReport) :
  let total := length (flows r) in
  let p := passed_flows (flows r) in
  p ≤ total ∧
  ∃ s, get_summary r = Ok s ∧
       summary_total s = total ∧
       passed s = p ∧
       success_rate s =
         if (total =? 0)%nat then "0%"
         else if (total <? 80)%nat then exact_rate p total
         else PyFloat.format_1f
                (PyFloat.mul
                   (PyFloat.div (PyFloat.of_int (Z.of_nat p))
                                (PyFloat.of_int (Z.of_nat total)))
                   (PyFloat.of_int 100)) +:+ "%".
Proof.
  intros total p.
  assert (Hp : count_result PASS (flows r) = p) by apply passed_flows_count.
  assert (Hle : p ≤ total) by (rewrite <- Hp; apply count_result_le).
  split; [exact Hle|].
  unfold get_summary. fold total. rewrite Hp.
  destruct (Nat.eqb_spec total 0) as [H0|H0].
  - rewrite H0. cbn [Nat.ltb Nat.leb]. eexists. by repeat split.
  - destruct (Nat.ltb_spec 0 total) as [Hpos|]; [|lia].
    destruct (Nat.ltb_spec total 80) as [H80|H80].
    + rewrite rate_percent_exact by done. eexists. by repeat split.
    + unfold rate_percent. rewrite truediv_nonzero by lia.
      eexists. by repeat split.
Qed.

(** With 23 passed flows out of 80 the exact percentage is 28.75, half way
    between two tenths, and rounds to 28.8; the summary says 28.7, because
    the binary64 product [23 / 80 * 100] falls just below 28.75. *)
Lemma summary_rate_23_of_80 :
  length (flows report_23_of_80) = 80 ∧
  passed_flows (flows report_23_of_80) = 23 ∧
  (1000 * 23 = 287 * 80 + 40)%Z ∧
  exact_rate 23 80 = "28.8%" ∧
  ∃ s, get_summary report_23_of_80 = Ok s ∧ success_rate s = "28.7%".
Proof.
  repeat split; try (vm_compute; reflexivity).
  eexists. split; vm_compute; reflexivity.
Qed.

(** From 80 flows on, binary64 rounding shows: 23 of 80 is 28.75 percent,
    printed as 28.7. *)
Example rate_percent_23_of_80 :
  rate_percent 23 80 = Ok "28.7%" ∧ exact_rate 23 80 = "28.8%".
Proof. split; vm_compute; reflexivity. Qed.

(** ** The health aggregator *)

Lemma lookup_record (c : APICall) (m : gmap string ServiceHealth) (s : string) :
  record c m !! s =
    if decide (tag c = Some s)
    then Some (update_health c (default new_health (m !! s)))
    else m !! s.
Proof.
  unfold record. destruct (tag c) as [s'|] eqn:Htag.
  - case_decide as Hs.
    + injection Hs as ->. rewrite lookup_insert_eq. by destruct (m !! s).
    + rewrite lookup_insert_ne; [done|congruence].
  - by case_decide.
Qed.

Lemma counters_record (c : APICall) (m : gmap string ServiceHealth) (s : string) :
  counters (record c m) s =
    if decide (tag c = Some s)
    then Some (bump (is_2xx (response_code c)) (default (0, 0, 0) (counters m s)))
    else counters m s.
Proof.
  unfold counters. rewrite lookup_record. case_decide; [|done].
  destruct (m !! s) as [h|]; simpl; by destruct (is_2xx _).
Qed.

Lemma calls_to_record (c : APICall) (m : gmap string ServiceHealth) (s : string) :
  calls_to (record c m) s = calls_to m s + (if decide (tag c = Some s) then 1 else 0).
Proof.
  unfold calls_to. rewrite lookup_record. case_decide.
  - destruct (m !! s); simpl; lia.
  - destruct (m !! s); lia.
Qed.

Lemma bump_comm (a b : bool) (c : nat * nat * nat) :
  bump a (bump b c) = bump b (bump a c).
Proof. destruct c as [[t s] f]. by destruct a, b. Qed.

Lemma record_same_counters c m1 m2 :
  same_counters m1 m2 → same_counters (record c m1) (record c m2).
Proof. intros H s. rewrite !counters_record, (H s). done. Qed.

Lemma record_swap c1 c2 m1 m2 :
  same_counters m1 m2 →
  same_counters (record c1 (record c2 m1)) (record c2 (record c1 m2)).
Proof.
  intros H s. rewrite !counters_record, (H s).
  repeat case_decide; simpl; try done. by rewrite bump_comm.
Qed.

Lemma record_all_same_counters calls m1 m2 :
  same_counters m1 m2 → same_counters (record_all calls m1) (record_all calls m2).
Proof.
  revert m1 m2. induction calls as [|c calls IH]; intros m1 m2 H; [done|].
  simpl. by apply IH, record_same_counters.
Qed.

Lemma record_all_permutation calls calls' :
  Permutation calls calls' →
  ∀ m1 m2, same_counters m1 m2 →
           same_counters (record_all calls m1) (record_all calls' m2).
Proof.
  induction 1 as [|c l l' _ IH|c1 c2 l|l l' l'' _ IH1 _ IH2]; intros m1 m2 Hm.
  - done.
  - simpl. by apply IH, record_same_counters.
  - simpl. by apply record_all_same_counters, record_swap.
  - intros s. rewrite (IH1 m1 m1) by done. by apply IH2.
Qed.

Lemma health_after_log_calls calls flow e :
  api_health (report (snd (log_calls calls flow e)))
  = record_all calls (api_health (report e)).
Proof.
  unfold log_calls, record_all.
  change e with (snd (flow, e)) at 2. generalize (flow, e) as s.
  induction calls as [|c calls IH]; intros s; [done|].
  simpl. by rewrite IH.
Qed.

Lemma apis_after_log_calls calls flow e :
  apis (fst (log_calls calls flow e)) = apis flow ++ calls.
Proof.
  unfold log_calls.
  change flow with (fst (flow, e)) at 2. generalize (flow, e) as s.
  induction calls as [|c calls IH]; intros s; simpl.
  - by rewrite app_nil_r.
  - rewrite IH. simpl. by rewrite <- app_assoc.
Qed.

(** C9. Logging the same calls in any order leaves, for every service, the
    same total, success and failure counts in the health table. *)
Theorem health_counters_order_independent
    (calls calls' : list APICall) (flow flow' : TestFlow) (e : Engine) :
  Permutation calls calls' →
  ∀ s, counters (api_health (report (snd (log_calls calls flow e)))) s
       = counters (api_health (report (snd (log_calls calls' flow' e)))) s.
Proof.
  intros Hperm s. rewrite !health_after_log_calls.
  by apply record_all_permutation.
Qed.

Lemma update_health_balanced c h : balanced h → balanced (update_health c h).
Proof.
  unfold balanced. intros H. simpl.
  destruct (is_2xx (response_code c)); lia.
Qed.

Lemma record_balanced c m : health_balanced m → health_balanced (record c m).
Proof.
  intros Hm s h. rewrite lookup_record. case_decide; [|apply Hm].
  intros [= <-]. apply update_health_balanced.
  destruct (m !! s) as [h0|] eqn:Hs; simpl; [by eapply Hm|done].
Qed.

Lemma health_balanced_empty : health_balanced ∅.
Proof. intros s h. by rewrite lookup_empty. Qed.

Lemma record_all_balanced calls m :
  health_balanced m → health_balanced (record_all calls m).
Proof.
  revert m. induction calls as [|c calls IH]; intros m Hm; [done|].
  simpl. by apply IH, record_balanced.
Qed.

(** C10. Every [log_api_call] keeps [total = success + failures] in every
    entry of the health table, and a call without a status code adds one
    failure and no success to the entry of its service. *)
Theorem log_api_call_keeps_balance (call : APICall) (flow : TestFlow) (e : Engine) :
  health_balanced (api_health (report e)) →
  let health' := api_health (report (snd (log_api_call call flow e))) in
  health_balanced health' ∧
  ∀ s, tag call = Some s → response_code call = None →
       counters health' s
       = Some (bump false (default (0, 0, 0) (counters (api_health (report e)) s))).
Proof.
  intros Hbal. simpl. split; [by apply record_balanced|].
  intros s Htag Hcode. rewrite counters_record, decide_True by done.
  by rewrite Hcode.
Qed.

(** The invariant holds after any sequence of calls logged by a new engine. *)
Lemma log_calls_balanced calls flow :
  health_balanced (api_health (report (snd (log_calls calls flow new_engine)))).
Proof.
  rewrite health_after_log_calls.
  apply record_all_balanced, health_balanced_empty.
Qed.

(** ** Rules of the step-body monad *)

Section Rules.
Context {A B : Type}.
Implicit Types (flow : TestFlow) (e : Engine).

Lemma wp_bind (m : M A) (k : A → M B) Q flow e :
  wp m (λ c flow' e',
          match c with
          | Next a => wp (k a) Q flow' e'
          | Return => Q Return flow' e'
          | Throw x => Q (Throw x) flow' e'
          end) flow e →
  wp (bind m k) Q flow e.
Proof.
  unfold wp, bind. destruct (m (flow, e)) as [[a| |x] [flow' e']]; done.
Qed.

Lemma wp_ret (a : A) (Q : ctl A → TestFlow → Engine → Prop) flow e :
  Q (Next a) flow e → wp (ret a) Q flow e.
Proof. done. Qed.

Lemma wp_return_flow (Q : ctl A → TestFlow → Engine → Prop) flow e :
  Q Return flow e → wp return_flow Q flow e.
Proof. done. Qed.

Lemma wp_lift (r : py A) (Q : ctl A → TestFlow → Engine → Prop) flow e :
  match r with Ok a => Q (Next a) flow e | Raise x => Q (Throw x) flow e end →
  wp (lift r) Q flow e.
Proof. unfold wp, lift. by destruct r. Qed.

Lemma wp_if (b : bool) (m1 m2 : M A) Q flow e :
  (if b then wp m1 Q flow e else wp m2 Q flow e) →
  wp (if b then m1 else m2) Q flow e.
Proof. by destruct b. Qed.
End Rules.

Section UnitRules.
Implicit Types (flow : TestFlow) (e : Engine) (Q : ctl () → TestFlow → Engine → Prop).

Lemma wp_self (Q : ctl Engine → TestFlow → Engine → Prop) flow e :
  Q (Next e) flow e → wp self Q flow e.
Proof. done. Qed.

Lemma wp_update f Q flow e : Q (Next ()) flow (f e) → wp (update f) Q flow e.
Proof. done. Qed.

Lemma wp_set_result r Q flow e :
  Q (Next ()) (with_flow_result r flow) e → wp (set_result r) Q flow e.
Proof. done. Qed.

Lemma wp_set_root_cause c Q flow e :
  Q (Next ()) (with_root_cause c flow) e → wp (set_root_cause c) Q flow e.
Proof. done. Qed.

Lemma wp_log call Q flow e :
  Q (Next ()) (log_api_call call flow e).1 (log_api_call call flow e).2 →
  wp (log call) Q flow e.
Proof. done. Qed.

Lemma wp_when (b : bool) m Q flow e :
  (if b then wp m Q flow e else Q (Next ()) flow e) → wp (when b m) Q flow e.
Proof. by destruct b. Qed.

Lemma wp_try_except m Q flow e :
  wp m (λ c flow' e',
          match c with
          | Throw x =>
              Q (Next ()) (with_root_cause (CauseException x)
                             (with_flow_result FAIL flow')) e'
          | c => Q c flow' e'
          end) flow e →
  wp (try_except m) Q flow e.
Proof.
  unfold wp, try_except. destruct (m (flow, e)) as [[a| |x] [flow' e']]; done.
Qed.

Lemma wp_call_step f (Q : ctl TestFlow → TestFlow → Engine → Prop) flow e :
  Q (Next (f e).1) flow (f e).2 → wp (call_step f) Q flow e.
Proof. unfold wp, call_step. simpl. by destruct (f e). Qed.

Lemma wp_request server m u token json_data svc
    (Q : ctl (option Response * APICall) → TestFlow → Engine → Prop) flow e :
  match server (sent e) (request_of m u token json_data) with
  | Answer r elapsed =>
      Q (Next (Some r, answered m u json_data svc r elapsed)) flow
        (with_sent (sent e ++ [request_of m u token json_data]) e)
  | Refused msg =>
      Q (Next (None, refused m u json_data svc msg)) flow
        (with_sent (sent e ++ [request_of m u token json_data]) e)
  end →
  wp (request server m u token json_data svc) Q flow e.
Proof.
  unfold wp, request, make_request, request_of, answered, refused. simpl.
  by destruct (server _ _).
Qed.

Lemma step_wp (P : TestFlow * Engine → Prop) n svc (m : M ()) e :
  wp m (λ _ flow' e', P (flow', e')) (new_flow n svc) e → P (step n svc m e).
Proof. unfold wp, step. by destruct (m _) as [c [flow' e']]. Qed.
End UnitRules.

Ltac project :=
  cbn [report api_health flows with_report with_sent apis result root_cause
       name flow_service with_flow_result with_root_cause new_flow sent
       log_api_call fst snd
       with_customer_token with_admin_token with_customer_user_id
       with_admin_user_id with_test_address_id with_test_product_id
       with_test_category_id with_test_order_id with_test_cart_item_id
       customer_token admin_token customer_user_id admin_user_id
       test_address_id test_product_id test_category_id test_order_id
       test_cart_item_id] in *.

(** One step of symbolic execution; every branch of the body becomes a
    goal, with the equations that select it among the hypotheses. *)
Ltac wp_step :=
  lazymatch goal with
  | |- wp (bind _ _) _ _ _ => apply wp_bind
  | |- wp (ret _) _ _ _ => apply wp_ret
  | |- wp return_flow _ _ _ => apply wp_return_flow
  | |- wp (try_except _) _ _ _ => apply wp_try_except
  | |- wp (lift ?r) _ _ _ => apply wp_lift; destruct r eqn:?
  | |- wp self _ _ _ => apply wp_self
  | |- wp (update _) _ _ _ => apply wp_update
  | |- wp (set_result _) _ _ _ => apply wp_set_result
  | |- wp (set_root_cause _) _ _ _ => apply wp_set_root_cause
  | |- wp (log _) _ _ _ => apply wp_log
  | |- wp (call_step _) _ _ _ => apply wp_call_step
  | |- wp (request _ _ _ _ _ _) _ _ _ =>
      apply wp_request;
      lazymatch goal with
      | |- match ?x with _ => _ end => destruct x eqn:?
      end
  | |- wp (when ?b _) _ _ _ => apply wp_when; destruct b eqn:?
  | |- wp (if ?b then _ else _) _ _ _ => apply wp_if; destruct b eqn:?
  | |- wp (fail_with_status _) _ _ _ => unfold fail_with_status
  | |- wp (skip_because _) _ _ _ => unfold skip_because
  | |- wp skip _ _ _ => unfold skip
  end; cbv beta iota; project.

Ltac unfold_step :=
  unfold perform;
  first
    [ progress unfold test_user_registration, test_user_login,
        test_get_current_user, test_jwt_expiration_handling,
        test_get_categories, test_get_products, test_search_products,
        test_get_product_detail, test_create_address, test_get_addresses,
        test_get_cart, test_update_cart_item, test_remove_from_cart,
        test_create_payment_intent, test_get_orders, test_get_order_detail,
        test_admin_create_category, test_admin_update_order_status,
        test_admin_get_all_orders, test_get_inventory,
        test_reserve_inventory, test_notification_service, test_get_stores,
        test_get_nearby_stores, test_get_product_reviews,
        test_cross_service_cart_order_flow
    | unfold test_add_to_cart ].

(** Runs the step named in the goal along all its branches. *)
Ltac run_step :=
  match goal with
  | |- context [step ?n ?svc ?m ?e] =>
      pattern (step n svc m e); apply step_wp
  end;
  repeat wp_step.

(** ** Calls logged by the steps *)

Lemma tagged_nil s : tagged s [] = 0.
Proof. done. Qed.

Lemma tagged_app s l1 l2 : tagged s (l1 ++ l2) = tagged s l1 + tagged s l2.
Proof. unfold tagged. by rewrite filter_app, length_app. Qed.

Lemma tagged_one s c : tagged s [c] = if tagged_with s c then 1 else 0.
Proof.
  unfold tagged. rewrite filter_cons, filter_nil.
  destruct (tagged_with s c); by case_decide.
Qed.

Lemma calls_to_record_tagged c m s :
  tag c = service c → calls_to (record c m) s = calls_to m s + tagged s [c].
Proof.
  intros Htag. rewrite calls_to_record, tagged_one. f_equal.
  unfold tagged_with. rewrite Htag.
  destruct (service c) as [s'|]; [|by case_decide].
  destruct (String.eqb_spec s' s); case_decide; congruence.
Qed.

Lemma tagged_one_A s c :
  service c = Some "A" → tagged s [c] ≤ 1 ∧ (s ≠ "A" → tagged s [c] = 0).
Proof.
  intros H. rewrite tagged_one. unfold tagged_with. rewrite H.
  destruct (String.eqb_spec "A" s); split; (lia || congruence).
Qed.

Lemma tagged_in_flows_nil s : tagged_in_flows s [] = 0.
Proof. done. Qed.

Lemma tagged_in_flows_app s fs gs :
  tagged_in_flows s (fs ++ gs) = tagged_in_flows s fs + tagged_in_flows s gs.
Proof. unfold tagged_in_flows. by rewrite map_app, concat_app, tagged_app. Qed.

Lemma tagged_in_flows_one s f : tagged_in_flows s [f] = tagged s (apis f).
Proof. unfold tagged_in_flows. simpl. by rewrite app_nil_r. Qed.

Ltac count_calls :=
  rewrite ?tagged_app, ?tagged_nil, ?tagged_in_flows_one, ?tagged_in_flows_nil;
  rewrite ?calls_to_record_tagged by reflexivity.

(** The add-to-cart step logs at most one call, tagged with service A. *)
Lemma add_to_cart_calls server e s :
  tagged s (apis (test_add_to_cart server e).1) ≤ 1 ∧
  (s ≠ "A" → tagged s (apis (test_add_to_cart server e).1) = 0).
Proof.
  unfold_step. run_step; rewrite ?app_nil_l, ?tagged_nil;
    try (by apply tagged_one_A); split; (lia || done).
Qed.

Lemma add_to_cart_accounts server : step_accounts server AddToCart.
Proof.
  intros e s. cbn [inline_flows]. unfold_step.
  run_step; (split; [done|]); count_calls; lia.
Qed.

Lemma create_payment_intent_accounts server : step_accounts server CreatePaymentIntent.
Proof.
  intros e s.
  destruct (add_to_cart_accounts server e s) as [Hflows Hcalls].
  cbn [perform inline_flows] in Hflows, Hcalls.
  rewrite tagged_in_flows_nil in Hcalls.
  cbn [inline_flows]. unfold repairs_cart. unfold_step.
  run_step; (split; [done || exact Hflows|]);
    destruct (truthy (customer_token e)), (truthy (test_address_id e)),
      (truthy (test_cart_item_id e));
    cbn [negb orb andb] in *; try discriminate;
    count_calls; rewrite ?Hcalls; lia.
Qed.

Lemma perform_accounts server st : step_accounts server st.
Proof.
  destruct st; try apply create_payment_intent_accounts;
    try apply add_to_cart_accounts;
    intros e s; cbn [inline_flows]; unfold_step;
    run_step; (split; [done|]); count_calls; lia.
Qed.

(** ** Calls logged by a run *)

Lemma accounted_new_engine : accounted (λ _ : string, 0) new_engine.
Proof. by intros s. Qed.

Lemma accounted_run_entry server (p : bool * Step) hidden e :
  accounted hidden e →
  accounted (λ s, hidden s
                  + tagged_in_flows s
                      ((if p.1 then [] else [(perform server p.2 e).1])
                       ++ inline_flows server p.2 e))
    (run_entry server p e).
Proof.
  intros He s. destruct p as [keep st]. cbn [fst snd].
  destruct (perform_accounts server st e s) as [Hflows Hcalls].
  specialize (He s). rewrite tagged_in_flows_app.
  unfold run_entry, recorded, unrecorded. cbn [fst snd].
  destruct (perform server st e) as [flow e'] eqn:Hp. cbn [fst snd] in *.
  destruct keep; cbn [report api_health flows with_report add_flow].
  - rewrite Hflows, tagged_in_flows_app, tagged_in_flows_one, tagged_in_flows_nil. lia.
  - rewrite Hflows, tagged_in_flows_one. lia.
Qed.

Lemma accounted_schedule server steps :
  ∀ hidden e,
    accounted hidden e →
    accounted (λ s, hidden s + tagged_in_flows s (unrecorded_flows server steps e))
      (run_schedule server steps e).
Proof.
  unfold run_schedule.
  induction steps as [|p steps IH]; intros hidden e He; simpl.
  - intros s. rewrite tagged_in_flows_nil, Nat.add_0_r. apply He.
  - intros s.
    rewrite (IH _ _ (accounted_run_entry server p hidden e He) s).
    rewrite app_assoc, (tagged_in_flows_app s (_ ++ _)). lia.
Qed.

Lemma inline_flows_bound server st e s :
  tagged_in_flows s (inline_flows server st e) ≤ slack (true, st) ∧
  (s ≠ "A" → tagged_in_flows s (inline_flows server st e) = 0).
Proof.
  destruct (add_to_cart_calls server e s) as [Hle HA].
  destruct st; cbn [inline_flows slack]; rewrite ?tagged_in_flows_nil;
    try (split; [lia|done]).
  destruct (repairs_cart e);
    rewrite ?tagged_in_flows_one, ?tagged_in_flows_nil; split; (lia || done).
Qed.

Lemma unrecorded_flows_bound server steps :
  Forall kept_or_add_to_cart steps →
  ∀ e s,
    tagged_in_flows s (unrecorded_flows server steps e) ≤ sum_list (map slack steps) ∧
    (s ≠ "A" → tagged_in_flows s (unrecorded_flows server steps e) = 0).
Proof.
  induction 1 as [|[keep st] steps Hp _ IH]; intros e s; simpl.
  - by rewrite tagged_in_flows_nil.
  - rewrite !tagged_in_flows_app.
    destruct (IH (run_entry server (keep, st) e) s) as [IHle IHA].
    destruct (inline_flows_bound server st e s) as [Hile HiA]. simpl in Hile.
    destruct keep; cbn [fst snd].
    + rewrite tagged_in_flows_nil. split; [lia|].
      intros Hs. rewrite HiA, IHA by done. done.
    + destruct Hp as [Hp|Hp]; simpl in Hp; [done|]. subst st.
      destruct (add_to_cart_calls server e s) as [Hle HA].
      cbn [inline_flows perform]. rewrite tagged_in_flows_one, tagged_in_flows_nil.
      split; [lia|]. intros Hs. rewrite HA, IHA by done. done.
Qed.

Lemma run_all_tests_schedule server e :
  run_all_tests server e = run_schedule server schedule e.
Proof.
  unfold run_all_tests, run_schedule, schedule.
  cbn [fold_left fst snd perform run_entry]. reflexivity.
Qed.

Lemma schedule_kept_or_add_to_cart : Forall kept_or_add_to_cart schedule.
Proof. unfold schedule. repeat constructor; by right. Qed.

(** C3, as the run computes it.  After a run of a new engine, the health
    total of every service is the number of calls tagged with it in the
    recorded flows plus the number in the flows that were built without
    being recorded (the add-to-cart run again before checkout and the one
    the payment-intent step may run inline).  Those add at most two calls,
    all of service A. *)
Theorem run_health_totals (server : list Request → Request → Reply) (s : string) :
  let e := run_all_tests server new_engine in
  let hidden := unrecorded_flows server schedule new_engine in
  calls_to (api_health (report e)) s
  = tagged_in_flows s (flows (report e)) + tagged_in_flows s hidden ∧
  tagged_in_flows s hidden ≤ 2 ∧
  (s ≠ "A" → tagged_in_flows s hidden = 0).
Proof.
  intros e hidden. split.
  - pose proof (accounted_schedule server schedule (λ _ : string, 0) new_engine
                  accounted_new_engine s) as H.
    cbv beta in H. rewrite Nat.add_0_l, <- run_all_tests_schedule in H. exact H.
  - exact (unrecorded_flows_bound server schedule schedule_kept_or_add_to_cart
             new_engine s).
Qed.

(** On the cooperative platform the re-added cart item is counted in the
    health table and belongs to no recorded flow. *)
Lemma run_health_total_exceeds_recorded_calls :
  let e := run_all_tests platform new_engine in
  calls_to (api_health (report e)) "A" = 19 ∧
  tagged_in_flows "A" (flows (report e)) = 18.
Proof. vm_compute. done. Qed.

(** ** Classification of the steps *)

Lemma has_status_eq r code : has_status (Some r) code = true → status_code r = code.
Proof. apply Z.eqb_eq. Qed.

Ltac status_facts :=
  repeat match goal with
    | H : negb _ = false |- _ => apply negb_false_iff in H
    | H : negb _ = true |- _ => apply negb_true_iff in H
    | H : has_status None _ = true |- _ => discriminate H
    | H : has_status (Some _) _ = true |- _ => apply has_status_eq in H
    end.

Ltac members H :=
  cbn [app] in H;
  repeat (apply elem_of_cons in H as [->|H]);
  try (by apply elem_of_nil in H).

(** C7. The negative-auth step sends one [GET /auth/me] that carries the
    token "invalid.jwt.token"; it yields PASS exactly when a response with
    status 401 comes back, and WARNING for every other response status. *)
Theorem jwt_step_pass_iff_401 (server : list Request → Request → Reply) (e : Engine) :
  let flow := (test_jwt_expiration_handling server e).1 in
  let e' := (test_jwt_expiration_handling server e).2 in
  rq_bearer invalid_token_request = Some (JStr "invalid.jwt.token") ∧
  sent e' = sent e ++ [invalid_token_request] ∧
  (result flow = PASS ↔
     ∃ r t, server (sent e) invalid_token_request = Answer r t ∧
            status_code r = 401%Z) ∧
  (∀ r t, server (sent e) invalid_token_request = Answer r t →
          status_code r ≠ 401%Z → result flow = WARNING).
Proof.
  cbv zeta. split; [done|]. unfold_step. unfold invalid_token_request.
  run_step; status_facts; (split; [done|]); split.
  - split; [eauto|done].
  - intros r' t' [= <- <-] Hne. done.
  - split; [done|]. intros (r' & t' & [= <- <-] & Hr).
    unfold has_status in *. apply Z.eqb_neq in Heqb. done.
  - by intros r' t' [= <- <-] Hne.
  - split; [done|]. by intros (r' & t' & ? & _).
  - done.
Qed.

(** C4, as the steps classify.  When a call logged by a step carries a
    status of 400 or more, the step yields FAIL, except that the
    notification step yields WARNING and the negative-auth step yields PASS
    on 401 and WARNING otherwise. *)
Theorem error_status_classification
    (server : list Request → Request → Reply) (st : Step) (e : Engine) (c : APICall) :
  c ∈ apis (perform server st e).1 →
  error_status c = true →
  result (perform server st e).1 = classify_error st c.
Proof.
  destruct st; revert c; unfold_step; run_step; intros c Hc Herr; members Hc;
    status_facts; try done.
  all: unfold error_status, classify_error, has_status in *; cbn in *.
  all: try (rewrite Heqb; done).
  all: try (rewrite Heqb0; done).
  all: repeat match goal with
         | H : status_code _ = _ |- _ => rewrite H in *
         end; try done.
Qed.

(** The notification step turns a server error into WARNING. *)
Lemma notification_error_is_warning :
  let flow := (test_notification_service (always 500 JNull) new_engine).1 in
  map response_code (apis flow) = [Some 500%Z] ∧ result flow = WARNING.
Proof. vm_compute. done. Qed.

(** C5, as the guards are written.  When a session-state field that a step
    tests on entry is absent (or otherwise falsy), the step yields SKIPPED,
    logs no call, sends no request and leaves the engine as it was. *)
Theorem falsy_guard_skips
    (server : list Request → Request → Reply) (st : Step) (e : Engine)
    (field : Engine → json) :
  field ∈ guard st →
  truthy (field e) = false →
  result (perform server st e).1 = SKIPPED ∧
  apis (perform server st e).1 = [] ∧
  (perform server st e).2 = e.
Proof.
  intros Hin Hf.
  destruct st; cbn [guard] in Hin; members Hin; unfold_step; run_step;
    try done;
    rewrite Hf in *; cbn in *; rewrite ?orb_true_r in *; done.
Qed.

Lemma falsy_guard_skips_witness :
  result (test_get_current_user platform new_engine).1 = SKIPPED ∧
  apis (test_get_current_user platform new_engine).1 = [] ∧
  (test_get_current_user platform new_engine).2 = new_engine.
Proof.
  apply (falsy_guard_skips platform GetCurrentUser new_engine customer_token).
  - cbn [guard]. constructor.
  - reflexivity.
Defined.

(** Without a cart-item id the payment-intent step is not skipped: it
    repairs the cart with an inline add-to-cart and goes on. *)
Lemma payment_intent_without_cart_item :
  let p := test_create_payment_intent platform shopper in
  test_cart_item_id shopper = JNull ∧
  result p.1 = PASS ∧
  kinds (sent p.2) = [(GET, CatalogProduct (JInt 7)); (POST, CartItems);
                      (POST, CheckoutCreatePaymentIntent)].
Proof. vm_compute. done. Qed.

(** The cross-service step does not test the product id it interpolates. *)
Example cross_service_without_product_id :
  let e := with_test_product_id JNull shopper in
  let p := test_cross_service_cart_order_flow (always 404 JNull) e in
  result p.1 = FAIL ∧ kinds (sent p.2) = [(GET, CatalogProduct JNull)].
Proof. vm_compute. done. Qed.

Ltac same_reply :=
  repeat match goal with
    | H : ?srv ?h ?rq = Answer _ _, H' : ?srv ?h ?rq = _ |- _ =>
        rewrite H in H'; first [discriminate H' | injection H' as -> ->]
    end.

(** The requests of the cross-service step and the calls it logs: nothing
    is written to the session, the requests form a prefix of the chain, and
    each is logged with its method, URL and body. *)
Lemma cross_service_requests (server : list Request → Request → Reply) (e : Engine) :
  let flow := (test_cross_service_cart_order_flow server e).1 in
  let e' := (test_cross_service_cart_order_flow server e).2 in
  session e' = session e ∧
  ∃ issued, sent e' = sent e ++ issued ∧
            call_kinds (apis flow) = kinds issued ∧
            map payload (apis flow) = map rq_json issued ∧
            ∃ p, issued `prefix_of`
                   [product_request e; cart_request e p; checkout_request e].
Proof.
  cbv zeta. unfold_step. run_step.
  all: split; [done|].
  all: eexists; split;
    [ first [ symmetry; apply app_nil_r | rewrite <- ?app_assoc; reflexivity ] | ].
  all: split; [done|]. all: split; [done|].
  all: first [ solve [exists NotifyPayload; eexists; reflexivity]
             | solve [eexists; eexists; reflexivity] ].
Qed.

(** The guard of the cross-service step: without a customer token or an
    address nothing is sent; with both, the product request goes out
    first. *)
Lemma cross_service_guard (server : list Request → Request → Reply) (e : Engine) :
  let flow := (test_cross_service_cart_order_flow server e).1 in
  let e' := (test_cross_service_cart_order_flow server e).2 in
  if truthy (customer_token e) && truthy (test_address_id e)
  then ∃ rest, sent e' = sent e ++ product_request e :: rest
  else result flow = SKIPPED ∧ sent e' = sent e.
Proof.
  cbv zeta. unfold_step. run_step.
  all: destruct (truthy (customer_token e)), (truthy (test_address_id e));
    try discriminate; cbn [andb].
  all: try done.
  all: rewrite <- ?app_assoc; by eexists.
Qed.

(** After a product reply with a variant the cart-add goes out with the
    customer token and the body built from the product; after a 201 to it
    the payment-intent request goes out with the token and the session's
    address, and the step passes exactly when that creates an order; after
    anything else the step fails and the payment-intent request is not
    sent. *)
Lemma cross_service_progress (server : list Request → Request → Reply) (e : Engine)
    (d v : list (string * json)) :
  let flow := (test_cross_service_cart_order_flow server e).1 in
  let e' := (test_cross_service_cart_order_flow server e).2 in
  let rq1 := product_request e in
  let rq2 := cart_request e (chain_cart_payload e d v) in
  let rq3 := checkout_request e in
  truthy (customer_token e) && truthy (test_address_id e) = true →
  product_with_variant (server (sent e) rq1) d v →
  if replied 201 (server (sent e ++ [rq1]) rq2)
  then sent e' = sent e ++ [rq1; rq2; rq3] ∧
       (result flow = PASS ↔
        order_created (server (sent e ++ [rq1; rq2]) rq3) = true)
  else sent e' = sent e ++ [rq1; rq2] ∧ result flow = FAIL.
Proof.
  cbv zeta. intros Hguard (r & t & vs & Hr & Hcode & Hbody & Hvar).
  unfold product_request, cart_request, checkout_request, chain_cart_payload in *.
  unfold from_option, id.
  unfold_step. run_step; status_facts.
  all: try (destruct (truthy (customer_token e)), (truthy (test_address_id e));
            discriminate).
  all: rewrite Hr in *; simplify_eq.
  all: try (unfold has_status in *; rewrite Z.eqb_neq in *; done).
  all: unfold json_of in *; rewrite Hbody in *; simplify_eq.
  all: cbn [py_get_default] in *; rewrite Hvar in *; simplify_eq.
  all: try discriminate.
  all: cbn [py_first head or_index_error] in *; simplify_eq.
  all: unfold py_get in *; cbn [py_get_default] in *; simplify_eq.
  all: rewrite <- ?app_assoc in *; cbn [app] in *.
  all: repeat match goal with
         | H : ?a = Answer _ _ |- context [?a] => rewrite H
         | H : ?a = Refused _ |- context [?a] => rewrite H
         end.
  all: cbn [replied order_created]; unfold has_status in *.
  all: repeat match goal with
         | H : (_ =? _)%Z = false |- _ => rewrite H
         | H : status_code ?r = _ |- context [status_code ?r] => rewrite H
         end.
  all: cbn [Z.eqb Pos.eqb andb].
  all: try (split; [done|]).
  all: try done.
  all: repeat match goal with
         | H : match body ?r with _ => _ end = _ |- _ =>
             destruct (body r); simplify_eq
         end.
  all: repeat match goal with
         | H : py_in _ _ = _ |- _ => rewrite H
         end.
  all: try done.
Qed.

(** A passing cross-service step has seen all three sub-calls succeed. *)
Lemma cross_service_pass (server : list Request → Request → Reply) (e : Engine) :
  let flow := (test_cross_service_cart_order_flow server e).1 in
  let rq1 := product_request e in
  let rq3 := checkout_request e in
  result flow = PASS →
  truthy (customer_token e) && truthy (test_address_id e) = true ∧
  ∃ d v, let rq2 := cart_request e (chain_cart_payload e d v) in
         product_with_variant (server (sent e) rq1) d v ∧
         replied 201 (server (sent e ++ [rq1]) rq2) = true ∧
         order_created (server (sent e ++ [rq1; rq2]) rq3) = true.
Proof.
  cbv zeta.
  unfold product_request, cart_request, checkout_request, chain_cart_payload,
    product_with_variant.
  unfold from_option, id.
  unfold_step. run_step; status_facts; try discriminate. intros _.
  split; [by destruct (truthy (customer_token e)), (truthy (test_address_id e))|].
  unfold json_of in *.
  destruct (body r) as [[| | | | | |d]|] eqn:Hbody; simplify_eq; try discriminate.
  cbn [py_get_default] in *.
  destruct (assoc "variants" d) as [[| | | | |[|[| | | | | |v] vs]|]|] eqn:Hvar;
    simplify_eq; try discriminate.
  all: cbn [py_first head or_index_error truthy] in *.
  all: try match goal with
         | H : or_index_error (first_char ?s) = _ |- _ =>
             destruct s; cbn [first_char or_index_error] in H
         end.
  all: simplify_eq.
  all: unfold py_get in *; cbn [py_get_default] in *; simplify_eq.
  exists d, v. split; [by eexists _, _, _|].
  rewrite <- ?app_assoc in *; cbn [app] in *.
  repeat match goal with
         | H : ?a = Answer _ _ |- context [?a] => rewrite H
         end.
  cbn [replied order_created]. rewrite Heqb2, Heqb3.
  destruct (body r1); simplify_eq. rewrite Heqp7. done.
Qed.

(** The statuses of the logged sub-calls decide the outcome in order. *)
Lemma cross_service_codes (server : list Request → Request → Reply) (e : Engine) :
  let flow := (test_cross_service_cart_order_flow server e).1 in
  (result flow = PASS →
   map response_code (apis flow) = [Some 200; Some 201; Some 200]%Z) ∧
  (∀ c1 rest, apis flow = c1 :: rest →
              response_code c1 ≠ Some 200%Z →
              result flow = FAIL ∧ rest = []) ∧
  (∀ c1 c2 rest, apis flow = c1 :: c2 :: rest →
                 response_code c2 ≠ Some 201%Z →
                 result flow = FAIL ∧ rest = []).
Proof.
  cbv zeta. unfold_step. run_step; status_facts.
  all: split; [try done; intros _; cbn; by repeat f_equal|].
  all: split.
  all: try (intros c1 rest [= <- <-] Hc1; try done; cbn in Hc1; congruence).
  all: try (intros c1 c2 rest [= <- <- <-] Hc2; try done; cbn in Hc2; congruence).
Qed.

(** C6, as the step is written.  The cross-service step writes no
    session-state field.  Without a customer token or an address it is
    skipped and sends nothing; with both it sends the product request for the
    session's product id first.  Its requests are a prefix of the chain
    product fetch, cart-add, payment intent, the last two carrying the
    customer token, and each is logged with its method, URL and body.  After
    a product reply with status 200 and a first variant, the cart-add is sent
    with the body built from the product; if it comes back with 201 the
    payment-intent request is sent with the session's address id, and
    otherwise the step fails and that request is never sent.  The step
    passes exactly when the three replies were a product with a variant, a
    201 and a 200 that contains an order id, in that order. *)
Theorem cross_service_chain (server : list Request → Request → Reply) (e : Engine) :
  let flow := (test_cross_service_cart_order_flow server e).1 in
  let e' := (test_cross_service_cart_order_flow server e).2 in
  let ready := truthy (customer_token e) && truthy (test_address_id e) in
  let rq1 := product_request e in
  let rq2 := λ d v, cart_request e (chain_cart_payload e d v) in
  let rq3 := checkout_request e in
  session e' = session e ∧
  (∃ issued, sent e' = sent e ++ issued ∧
             call_kinds (apis flow) = kinds issued ∧
             map payload (apis flow) = map rq_json issued ∧
             ∃ p, issued `prefix_of` [rq1; cart_request e p; rq3]) ∧
  (if ready
   then ∃ rest, sent e' = sent e ++ rq1 :: rest
   else result flow = SKIPPED ∧ sent e' = sent e) ∧
  (∀ d v, ready = true →
          product_with_variant (server (sent e) rq1) d v →
          if replied 201 (server (sent e ++ [rq1]) (rq2 d v))
          then sent e' = sent e ++ [rq1; rq2 d v; rq3] ∧
               (result flow = PASS ↔
                order_created (server (sent e ++ [rq1; rq2 d v]) rq3) = true)
          else sent e' = sent e ++ [rq1; rq2 d v] ∧ result flow = FAIL) ∧
  (result flow = PASS ↔
   ready = true ∧
   ∃ d v, product_with_variant (server (sent e) rq1) d v ∧
          replied 201 (server (sent e ++ [rq1]) (rq2 d v)) = true ∧
          order_created (server (sent e ++ [rq1; rq2 d v]) rq3) = true) ∧
  (result flow = PASS →
   map response_code (apis flow) = [Some 200; Some 201; Some 200]%Z) ∧
  (∀ c1 rest, apis flow = c1 :: rest →
              response_code c1 ≠ Some 200%Z →
              result flow = FAIL ∧ rest = []) ∧
  (∀ c1 c2 rest, apis flow = c1 :: c2 :: rest →
                 response_code c2 ≠ Some 201%Z →
                 result flow = FAIL ∧ rest = []).
Proof.
  destruct (cross_service_requests server e) as [Hsession Hissued].
  pose proof (cross_service_guard server e) as Hguard.
  pose proof (cross_service_progress server e) as Hprogress.
  pose proof (cross_service_pass server e) as Hpass.
  pose proof (cross_service_codes server e) as Hcodes.
  cbv zeta in *.
  split; [exact Hsession|]. split; [exact Hissued|]. split; [exact Hguard|].
  split; [intros d v; apply Hprogress|].
  split; [|exact Hcodes].
  split; [exact Hpass|].
  intros [Hready (d & v & Hproduct & H201 & Horder)].
  specialize (Hprogress d v Hready Hproduct).
  rewrite H201 in Hprogress.
  by apply Hprogress.
Qed.

(** On the cooperative platform the shopper's chain is the product request,
    the cart-add with the shopper's token and the payment-intent request
    with the shopper's token and address. *)
Example cross_service_on_platform :
  let p := test_cross_service_cart_order_flow platform shopper in
  result p.1 = PASS ∧
  sent p.2 =
    [ request_of GET (CatalogProduct (JInt 7)) JNull None;
      request_of POST CartItems (JStr "tok")
        (Some (CartItemPayload (JInt 7) (JInt 3) (inl (JStr "MUG-1")) (JInt 0)));
      request_of POST CheckoutCreatePaymentIntent (JStr "tok")
        (Some (CheckoutPayload (JInt 5) (JInt 5))) ] ∧
  map rq_bearer (sent p.2) = [None; Some (JStr "tok"); Some (JStr "tok")].
Proof. vm_compute. done. Qed.

(** On the cooperative platform the cross-service step passes and leaves
    the cart-item id and the order id of the session unset. *)
Lemma cross_service_leaves_session :
  let p := test_cross_service_cart_order_flow platform shopper in
  result p.1 = PASS ∧
  test_cart_item_id p.2 = JNull ∧ test_order_id p.2 = JNull.
Proof. vm_compute. done. Qed.

(** C2, as the step tests it.  On a login reply with status 200: a body
    whose access token is truthy and whose user is a non-empty object makes
    the step store the token and the user's id in the fields of the given
    role and yield PASS; the step yields PASS or FAIL, never WARNING; and it
    yields PASS only if the body holds a truthy token and a truthy user. *)
Theorem login_step_on_200
    (server : list Request → Request → Reply) (email password role : string)
    (e : Engine) (r : Response) (t : SpecFloat.spec_float) :
  server (sent e) (login_request email password) = Answer r t →
  status_code r = 200%Z →
  let flow := (test_user_login server email password role e).1 in
  let e' := (test_user_login server email password role e).2 in
  (∀ data token fields,
     body r = Some data →
     py_get data "access_token" = Ok token → truthy token = true →
     py_get data "user" = Ok (JObj fields) → fields ≠ [] →
     result flow = PASS ∧
     if String.eqb role "customer"
     then customer_token e' = token ∧
          customer_user_id e' = default JNull (assoc "id" fields)
     else admin_token e' = token ∧
          admin_user_id e' = default JNull (assoc "id" fields)) ∧
  (result flow = PASS ∨ result flow = FAIL) ∧
  (result flow = PASS →
   ∃ data token user,
     body r = Some data ∧
     py_get data "access_token" = Ok token ∧ py_get data "user" = Ok user ∧
     truthy token = true ∧ truthy user = true).
Proof.
  cbv zeta. unfold login_request. unfold_step.
  run_step; intros Hreply Hcode; simplify_eq; status_facts;
    try (unfold has_status in *; rewrite Hcode in *; done).
  all: unfold json_of in *.
  all: split; [|split; [first [by left|by right]|]].
  all: try (intros _; destruct (body r); simplify_eq;
            apply andb_true_iff in Heqb0 as [? ?]; by eauto 10).
  all: try (by intros [=]).
  all: intros data token fields Hbody Htok Htruthy Huser Hne;
       rewrite Hbody in *; simplify_eq;
       rewrite ?Htok, ?Huser in *; simplify_eq; cbn in *; simplify_eq;
       try done.
  all: rewrite Htruthy in Heqb0; by destruct fields.
Qed.

Lemma login_step_on_200_witness :
  let r := {| status_code := 200;
              body := Some (JObj [("access_token", JStr "tok");
                                  ("user", JObj [("id", JInt 1)])]);
              text := "" |} in
  let p := test_user_login platform CUSTOMER_EMAIL CUSTOMER_PASSWORD "customer"
             new_engine in
  result p.1 = PASS ∧ customer_token p.2 = JStr "tok" ∧ customer_user_id p.2 = JInt 1.
Proof.
  intros r p.
  destruct (login_step_on_200 platform CUSTOMER_EMAIL CUSTOMER_PASSWORD "customer"
              new_engine r (PyFloat.of_int 1) eq_refl eq_refl) as [H _].
  specialize (H (JObj [("access_token", JStr "tok"); ("user", JObj [("id", JInt 1)])])
                (JStr "tok") [("id", JInt 1)] eq_refl eq_refl eq_refl eq_refl).
  destruct H as [H1 [H2 H3]]; [discriminate|].
  exact (conj H1 (conj H2 H3)).
Defined.

(** A body that holds a token and an empty user object fails the login
    step although both fields are there. *)
Lemma login_with_empty_user_object_fails :
  let data := JObj [("access_token", JStr "tok"); ("user", JObj [])] in
  let flow := (test_user_login (always 200 data) CUSTOMER_EMAIL CUSTOMER_PASSWORD
                 "customer" new_engine).1 in
  py_in_both "access_token" "user" data = Ok true ∧
  py_get data "user" = Ok (JObj []) ∧
  result flow = FAIL.
Proof. vm_compute. done. Qed.

(** C8, as [in] behaves.  With a truthy product id and a reply of status
    200: an object body holding the keys [id] and [name] yields PASS; a list
    body yields WARNING unless the strings "id" and "name" are both among
    its elements, in which case it yields PASS. *)
Theorem product_detail_on_200
    (server : list Request → Request → Reply) (e : Engine)
    (r : Response) (t : SpecFloat.spec_float) (data : json) :
  truthy (test_product_id e) = true →
  server (sent e) (product_request e) = Answer r t →
  status_code r = 200%Z →
  body r = Some data →
  let flow := (test_get_product_detail server e).1 in
  (∀ kvs, data = JObj kvs → is_Some (assoc "id" kvs) → is_Some (assoc "name" kvs) →
          result flow = PASS) ∧
  (∀ xs, data = JArr xs →
         result flow = if existsb (is_str "id") xs && existsb (is_str "name") xs
                       then PASS else WARNING).
Proof.
  cbv zeta. unfold product_request. unfold_step.
  run_step; intros Hid Hreply Hcode Hbody; simplify_eq; status_facts;
    try congruence;
    try (unfold has_status in *; rewrite Hcode in *; done).
  all: unfold json_of in *; rewrite Hbody in *; simplify_eq.
  all: unfold py_in_both in *; split.
  all: try (intros kvs -> [v1 H1] [v2 H2]; cbn in *;
            rewrite H1, H2 in *; by simplify_eq).
  all: intros xs ->; cbn in *;
       destruct (existsb (is_str "id") xs), (existsb (is_str "name") xs);
       by simplify_eq.
Qed.

Lemma product_detail_on_200_witness :
  result (test_get_product_detail platform shopper).1 = PASS.
Proof.
  destruct (product_detail_on_200 platform shopper
              {| status_code := 200; body := Some product_7; text := "" |}
              (PyFloat.of_int 1) product_7 eq_refl eq_refl eq_refl eq_refl)
    as [H _].
  apply (H _ eq_refl); eexists; reflexivity.
Defined.

(** A list body that holds the strings "id" and "name" passes the
    product-detail step. *)
Lemma product_detail_list_body_passes :
  let data := JArr [JStr "id"; JStr "name"] in
  is_list data = true ∧
  result (test_get_product_detail (always 200 data) shopper).1 = PASS.
Proof. vm_compute. done. Qed.

(** ** Concrete instances *)

Lemma error_status_classification_witness :
  let c := answered GET Stores None "B"
             {| status_code := 500; body := Some JNull; text := "" |}
             (PyFloat.of_int 1) in
  error_status c = true ∧
  result (perform (always 500 JNull) GetStores new_engine).1 = FAIL.
Proof.
  intros c. split; [reflexivity|].
  apply (error_status_classification (always 500 JNull) GetStores new_engine c).
  - vm_compute. constructor.
  - reflexivity.
Defined.

Lemma health_counters_order_independent_witness :
  let ok := answered GET Stores None "B"
              {| status_code := 200; body := Some (JArr []); text := "" |}
              (PyFloat.of_int 1) in
  let down := refused POST Notify (Some NotifyPayload) "C" "connection refused" in
  let flow := new_flow "Get Stores" "B" in
  Permutation [ok; down] [down; ok] ∧
  counters (api_health (report (log_calls [ok; down] flow new_engine).2)) "B"
  = counters (api_health (report (log_calls [down; ok] flow new_engine).2)) "B".
Proof.
  intros ok down flow. split; [apply perm_swap|].
  apply (health_counters_order_independent [ok; down] [down; ok] flow flow new_engine).
  apply perm_swap.
Defined.

Lemma log_api_call_keeps_balance_witness :
  let c := refused POST Notify (Some NotifyPayload) "C" "connection refused" in
  health_balanced
    (api_health (report (log_api_call c (new_flow "Notification Service" "C")
                           new_engine).2)).
Proof.
  intros c.
  apply (log_api_call_keeps_balance c (new_flow "Notification Service" "C") new_engine).
  intros s h Hs. vm_compute in Hs. discriminate Hs.
Defined.

(** ** More on the health aggregator *)

Lemma tag_tagged_with (c : APICall) (s : string) :
  s ≠ "" → tag c = Some s ↔ tagged_with s c = true.
Proof.
  intros Hs. unfold tag, tagged_with. destruct (service c) as [s'|]; [|done].
  destruct (String.eqb_spec s' ""), (String.eqb_spec s' s); split; congruence.
Qed.

Lemma record_all_snoc calls c m : record_all (calls ++ [c]) m = record c (record_all calls m).
Proof. unfold record_all. by rewrite fold_left_app. Qed.

Lemma record_all_app l1 l2 m : record_all (l1 ++ l2) m = record_all l2 (record_all l1 m).
Proof. unfold record_all. by rewrite fold_left_app. Qed.

Lemma succeeded_le s calls : succeeded s calls ≤ tagged s calls.
Proof.
  unfold succeeded, tagged. induction calls as [|c calls IH]; [done|].
  rewrite !filter_cons. destruct (tagged_with s c), (is_2xx (response_code c));
    repeat case_decide; simpl in *; try done; lia.
Qed.

Lemma succeeded_snoc s calls c :
  succeeded s (calls ++ [c])
  = succeeded s calls + (if tagged_with s c && is_2xx (response_code c) then 1 else 0).
Proof.
  unfold succeeded. rewrite filter_app, length_app, filter_cons, filter_nil.
  destruct (tagged_with s c && is_2xx (response_code c)); by case_decide.
Qed.

Lemma measured_for_snoc s calls c :
  measured_for s (calls ++ [c])
  = measured_for s calls
    ++ (if tagged_with s c
        then match measured (response_time c) with Some x => [x] | None => [] end
        else []).
Proof.
  unfold measured_for. rewrite omap_app. f_equal. cbn [omap list_omap].
  destruct (tagged_with s c); [|done]. by destruct (measured _).
Qed.

Lemma untagged_measured_for s calls : tagged s calls = 0 → measured_for s calls = [].
Proof.
  unfold tagged, measured_for. induction calls as [|c calls IH]; [done|].
  rewrite filter_cons. cbn [omap list_omap].
  destruct (tagged_with s c); case_decide; try done; cbn [length];
    intros H; first [discriminate H | by apply IH].
Qed.

(** X1.  The entry of a service after a list of calls has been logged by a new
    engine: none if no call carried its tag; otherwise its total is the
    number of calls with the tag, its successes are those with a 2xx status,
    its failures are the others, and its latencies are the non-zero response
    times of those calls, in order. *)
Theorem health_entry_after_logging
    (calls : list APICall) (flow : TestFlow) (s : string) :
  s ≠ "" →
  match api_health (report (log_calls calls flow new_engine).2) !! s with
  | None => tagged s calls = 0
  | Some h =>
      0 < tagged s calls ∧
      total h = tagged s calls ∧
      success h = succeeded s calls ∧
      failures h = tagged s calls - succeeded s calls ∧
      latencies h = measured_for s calls
  end.
Proof.
  intros Hs. rewrite health_after_log_calls. cbn [new_engine report api_health].
  induction calls as [|c calls IH] using rev_ind.
  - unfold record_all. cbn [fold_left]. by rewrite lookup_empty.
  - rewrite record_all_snoc, lookup_record.
    rewrite tagged_app, tagged_one, succeeded_snoc, measured_for_snoc.
    pose proof (succeeded_le s calls) as Hle.
    pose proof (tag_tagged_with c s Hs) as Htag.
    destruct (tagged_with s c) eqn:Hc.
    + rewrite decide_True by by apply Htag. cbn [andb].
      destruct (record_all calls ∅ !! s) as [h|] eqn:Hh; cbn [default from_option id].
      * destruct IH as (Hpos & Ht & Hsucc & Hf & Hl).
        cbn [update_health total success failures latencies].
        rewrite Ht, Hsucc, Hf, Hl.
        destruct (is_2xx (response_code c)), (measured (response_time c));
          repeat split; rewrite ?app_nil_r; first [lia | done].
      * cbn [update_health total success failures latencies new_health].
        rewrite (untagged_measured_for s calls IH).
        assert (succeeded s calls = 0) as -> by lia. rewrite IH.
        destruct (is_2xx (response_code c)), (measured (response_time c));
          repeat split; rewrite ?app_nil_r; first [lia | done].
    + rewrite decide_False by (intros H; apply Htag in H; done).
      cbn [andb]. rewrite !Nat.add_0_r, app_nil_r. exact IH.
Qed.

(** ** More on the steps *)

Lemma inline_flows_other server st e :
  st ≠ CreatePaymentIntent → inline_flows server st e = [].
Proof. by destruct st. Qed.

Lemma add_to_cart_health server e :
  flows (report (test_add_to_cart server e).2) = flows (report e) ∧
  api_health (report (test_add_to_cart server e).2)
  = record_all (apis (test_add_to_cart server e).1) (api_health (report e)).
Proof. unfold_step. run_step; done. Qed.

Lemma perform_health
    (server : list Request → Request → Reply) (st : Step) (e : Engine) :
  flows (report (perform server st e).2) = flows (report e) ∧
  api_health (report (perform server st e).2)
  = record_all (logged server st e) (api_health (report e)).
Proof.
  unfold logged.
  destruct st; try (cbn [inline_flows concat map app]; unfold_step; run_step; done).
  destruct (add_to_cart_health server e) as [Hflows Hhealth].
  cbn [inline_flows]. unfold repairs_cart. unfold_step.
  run_step;
    destruct (truthy (customer_token e)), (truthy (test_address_id e)),
      (truthy (test_cart_item_id e));
    cbn [negb orb andb] in *; try discriminate;
    cbn [concat map app]; rewrite ?app_nil_r, ?record_all_app, ?Hflows, ?Hhealth;
    done.
Qed.

(** X2.  A step changes the health table by recording, in order, the calls of
    the flow it builds inline and then those of the flow it returns, and by
    nothing else; the list of flows of the report is left alone. *)
Theorem step_records_its_calls
    (server : list Request → Request → Reply) (st : Step) (e : Engine) :
  flows (report (perform server st e).2) = flows (report e) ∧
  api_health (report (perform server st e).2)
  = record_all (logged server st e) (api_health (report e)).
Proof. apply perform_health. Qed.

Ltac issued_requests :=
  eexists; split;
  [ first [ symmetry; apply app_nil_r | rewrite <- ?app_assoc; reflexivity ] | ].

Lemma add_to_cart_requests server e :
  ∃ issued, sent (test_add_to_cart server e).2 = sent e ++ issued ∧
            length issued ≤ 2.
Proof. unfold_step. run_step; issued_requests; cbn; lia. Qed.

Lemma perform_requests
    (server : list Request → Request → Reply) (st : Step) (e : Engine) :
  ∃ issued,
    sent (perform server st e).2 = sent e ++ issued ∧
    length issued ≤ max_requests st ∧
    call_kinds (apis (perform server st e).1) `sublist_of` kinds issued.
Proof.
  destruct st;
    try (unfold_step; run_step; issued_requests;
         (split; [cbn; lia|cbn; solve [repeat constructor]])).
  destruct (add_to_cart_requests server e) as (inner & Hinner & Hlen).
  unfold_step. run_step; rewrite ?Hinner.
  all: try (issued_requests; (split; [cbn; lia|cbn; solve [repeat constructor]])).
  all: try (exists inner; split; [done|]; split; [cbn; lia|apply sublist_nil_l]).
  all: exists (inner ++ [request_of POST CheckoutCreatePaymentIntent
                           (customer_token (test_add_to_cart server e).2)
                           (Some (CheckoutPayload
                                    (test_address_id (test_add_to_cart server e).2)
                                    (test_address_id (test_add_to_cart server e).2)))]);
    (split; [by rewrite app_assoc|]);
    (split; [rewrite length_app; cbn; lia|]);
    unfold kinds; rewrite map_app; cbn;
    first [ apply sublist_nil_l | apply sublist_inserts_l; by repeat constructor ].
Qed.

(** X3.  A step only appends to the trace of requests; it issues at most
    [max_requests] of them (one, two with a product lookup, three for the
    payment-intent and cross-service steps); and the calls of the flow it
    returns are, in order, among the requests it issued. *)
Theorem step_requests
    (server : list Request → Request → Reply) (st : Step) (e : Engine) :
  ∃ issued,
    sent (perform server st e).2 = sent e ++ issued ∧
    length issued ≤ max_requests st ∧
    call_kinds (apis (perform server st e).1) `sublist_of` kinds issued.
Proof. apply perform_requests. Qed.

(** X4.  A step passes only on its expected status: the last call of a passing
    flow was answered with 201 by the creating steps, 401 by the
    negative-auth step and 200 by all others. *)
Theorem pass_means_expected_status
    (server : list Request → Request → Reply) (st : Step) (e : Engine) :
  result (perform server st e).1 = PASS →
  ∃ c, last (apis (perform server st e).1) = Some c ∧
       response_code c = Some (expected_status st).
Proof.
  destruct st; unfold_step; run_step; intros Hres; try discriminate Hres;
    status_facts; eexists; (split; [reflexivity|]); cbn; congruence.
Qed.

(** X5.  A warning is a broken contract on a good status, except for the
    notification and negative-auth steps, where it is the wrong status or no
    response at all. *)
Theorem warning_means_contract_violation
    (server : list Request → Request → Reply) (st : Step) (e : Engine) :
  result (perform server st e).1 = WARNING →
  ∃ c, last (apis (perform server st e).1) = Some c ∧
       match st with
       | NotificationService | JwtExpirationHandling =>
           response_code c ≠ Some (expected_status st)
       | _ => response_code c = Some (expected_status st)
       end.
Proof.
  destruct st; unfold_step; run_step; intros Hres; try discriminate Hres;
    status_facts; eexists; (split; [reflexivity|]); cbn; try congruence.
  all: unfold has_status in *;
    match goal with H : (_ =? _)%Z = false |- _ => apply Z.eqb_neq in H end;
    congruence.
Qed.

(** X6.  A skipped flow holds no call, except that the cross-service step may
    skip after its product fetch. *)
Theorem skipped_flow_has_no_call
    (server : list Request → Request → Reply) (st : Step) (e : Engine) :
  st ≠ CrossServiceCartOrderFlow →
  result (perform server st e).1 = SKIPPED →
  apis (perform server st e).1 = [].
Proof.
  destruct st; try done; intros _; unfold_step; run_step; intros Hres;
    by try discriminate Hres.
Qed.

Lemma status_cause_explained c : explained (status_cause c) = true.
Proof. unfold status_cause. by destruct (truthy (error c)) eqn:H; cbn. Qed.

Lemma error_or_text_explained v :
  explained (if truthy v then CauseValue v else Cause "Failed to create order") = true.
Proof. by destruct (truthy v) eqn:H; cbn. Qed.

(** X7.  Every failed flow says why: its root cause is a non-empty message, a
    truthy error value, a status or an exception. *)
Theorem failed_flow_is_explained
    (server : list Request → Request → Reply) (st : Step) (e : Engine) :
  result (perform server st e).1 = FAIL →
  explained (root_cause (perform server st e).1) = true.
Proof.
  destruct st; unfold_step; run_step; intros Hres; try discriminate Hres;
    first [ apply status_cause_explained
          | apply error_or_text_explained
          | reflexivity ].
Qed.

Lemma add_to_cart_frame server e f :
  f ≠ CartItemId → field f (test_add_to_cart server e).2 = field f e.
Proof.
  unfold_step. run_step; intros Hf; destruct f; by cbn [field]; project.
Qed.

Lemma perform_frame
    (server : list Request → Request → Reply) (st : Step) (e : Engine) (f : Field) :
  f ∉ writes st →
  field f (perform server st e).2 = field f e.
Proof.
  destruct st;
    try (unfold_step; run_step; intros Hf; destruct f; cbn [field]; project;
         try done; exfalso; apply Hf; cbn [writes];
         repeat match goal with H : String.eqb _ _ = _ |- _ => rewrite H end;
         set_solver).
  intros Hf.
  assert (Hcart : f ≠ CartItemId) by (intros ->; apply Hf; cbn; set_solver).
  assert (Horder : f ≠ OrderId) by (intros ->; apply Hf; cbn; set_solver).
  pose proof (add_to_cart_frame server e f Hcart) as Hadd.
  clear Hf. revert Hadd. unfold_step.
  run_step; intros Hadd; destruct f; cbn [field] in *; project; done.
Qed.

(** X8.  A step assigns only to its own session fields: the login step to the
    token and user id of its role, the listing steps to the category and
    product id, address creation to the address id, add-to-cart to the
    cart-item id, the payment-intent step to the cart-item and order id, and
    every other step to none. *)
Theorem step_writes_only_its_fields
    (server : list Request → Request → Reply) (st : Step) (e : Engine) (f : Field) :
  f ∉ writes st →
  field f (perform server st e).2 = field f e.
Proof. apply perform_frame. Qed.

(** X9.  Outside the login and payment-intent steps, a step that does not pass
    leaves every session field as it was. *)
Theorem session_changes_only_on_pass
    (server : list Request → Request → Reply) (st : Step) (e : Engine) :
  (∀ email password role, st ≠ UserLogin email password role) →
  st ≠ CreatePaymentIntent →
  result (perform server st e).1 ≠ PASS →
  session (perform server st e).2 = session e.
Proof.
  intros Hlogin Hpay.
  destruct st; try done; try (by exfalso; eapply Hlogin);
    unfold_step; run_step; intros Hres; by unfold session; project.
Qed.

(** Every step gives its flow the step's own name. *)
Lemma flow_name server st e : name (perform server st e).1 = step_name st.
Proof. destruct st; unfold_step; run_step; done. Qed.

(** ** More on the run *)

Lemma perform_flows server st e :
  flows (report (perform server st e).2) = flows (report e).
Proof. apply (perform_accounts server st e ""). Qed.

Lemma run_entry_flows server (p : bool * Step) e :
  flows (report (run_entry server p e))
  = flows (report e) ++ (if p.1 then [(perform server p.2 e).1] else []).
Proof.
  destruct p as [keep st]. unfold run_entry, recorded, unrecorded. cbn [fst snd].
  pose proof (perform_flows server st e) as H.
  destruct (perform server st e) as [flow e']. cbn [fst snd] in *.
  destruct keep; cbn [report flows with_report add_flow]; by rewrite H, ?app_nil_r.
Qed.

Lemma run_schedule_cons server p steps e :
  run_schedule server (p :: steps) e
  = run_schedule server steps (run_entry server p e).
Proof. done. Qed.

Lemma run_schedule_names server steps :
  ∀ e, map name (flows (report (run_schedule server steps e)))
       = map name (flows (report e))
         ++ map (λ p : bool * Step, step_name p.2) (filter (λ p, p.1 = true) steps).
Proof.
  induction steps as [|[keep st] steps IH]; intros e.
  - by rewrite app_nil_r.
  - rewrite run_schedule_cons, IH, run_entry_flows, filter_cons. cbn [fst snd].
    destruct keep; case_decide; try done.
    + rewrite map_app, <- app_assoc. cbn [map app]. by rewrite flow_name.
    + by rewrite app_nil_r.
Qed.

(** X10.  Whatever the platform answers, the report of a run holds one flow per
    recorded step, in the order of the run: twenty-eight flows with the
    names of [report_names]. *)
Theorem run_reports_every_step (server : list Request → Request → Reply) :
  map name (flows (report (run_all_tests server new_engine))) = report_names.
Proof.
  rewrite run_all_tests_schedule, run_schedule_names. reflexivity.
Qed.

Lemma run_flow_count server :
  length (flows (report (run_all_tests server new_engine))) = 28.
Proof.
  rewrite <- (length_map name), run_all_tests_schedule, run_schedule_names.
  reflexivity.
Qed.

(** X11.  The summary of a run counts twenty-eight flows, and its success rate is
    the share of passed flows among them as a percentage rounded to one
    decimal in exact arithmetic: binary64 rounding never shows. *)
Theorem run_summary (server : list Request → Request → Reply) :
  ∃ s, get_summary (report (run_all_tests server new_engine)) = Ok s ∧
       summary_total s = 28 ∧
       passed s + failed s + warnings s + skipped s = 28 ∧
       success_rate s = exact_rate (passed s) 28.
Proof.
  pose proof (run_flow_count server) as Hn.
  pose proof (count_result_le PASS (flows (report (run_all_tests server new_engine)))) as Hp.
  pose proof (count_result_partition (flows (report (run_all_tests server new_engine)))) as Hsum.
  unfold get_summary. rewrite Hn in *. cbn [Nat.ltb Nat.leb].
  rewrite (rate_percent_exact _ 28) by lia.
  eexists. split; [reflexivity|]. cbn [summary_total passed failed warnings skipped success_rate].
  repeat split; lia.
Qed.

Lemma run_schedule_requests server steps :
  ∀ e, length (sent (run_schedule server steps e))
       ≤ length (sent e) + sum_list (map (λ p : bool * Step, max_requests p.2) steps).
Proof.
  induction steps as [|[keep st] steps IH]; intros e; [simpl; lia|].
  rewrite run_schedule_cons. etrans; [apply IH|].
  destruct (perform_requests server st e) as (issued & Hsent & Hlen & _).
  assert (length (sent (run_entry server (keep, st) e)) ≤ length (sent e) + max_requests st).
  { unfold run_entry, recorded, unrecorded. cbn [fst snd].
    destruct (perform server st e) as [flow e']. cbn [fst snd] in *.
    destruct keep; cbn [sent with_report]; rewrite Hsent, length_app; lia. }
  change (sum_list (map (λ p : bool * Step, max_requests p.2) ((keep, st) :: steps)))
    with (max_requests st + sum_list (map (λ p : bool * Step, max_requests p.2) steps)).
  lia.
Qed.

(** X12.  A run hands at most thirty-seven requests to the client. *)
Theorem run_request_bound (server : list Request → Request → Reply) :
  length (sent (run_all_tests server new_engine)) ≤ 37.
Proof.
  rewrite run_all_tests_schedule.
  etrans; [apply run_schedule_requests|]. vm_compute. lia.
Qed.

Lemma update_health_mean c h : mean_kept h → mean_kept (update_health c h).
Proof.
  unfold mean_kept. intros H. cbn [update_health avg_latency latencies].
  destruct (measured (response_time c)) as [x|]; [|done].
  destruct (latencies h ++ [x]) eqn:E; [|done].
  by destruct (latencies h).
Qed.

Lemma new_health_mean : mean_kept new_health.
Proof. done. Qed.

(** X13.  Logging a call keeps the average latency of every entry equal to the
    mean of the latencies the entry holds (zero while it holds none). *)
Theorem log_api_call_keeps_mean (call : APICall) (flow : TestFlow) (e : Engine) :
  (∀ s h, api_health (report e) !! s = Some h → mean_kept h) →
  ∀ s h, api_health (report (log_api_call call flow e).2) !! s = Some h →
         mean_kept h.
Proof.
  intros Hm s h. cbn [log_api_call snd report api_health with_report].
  rewrite lookup_record. case_decide; [|apply Hm].
  intros [= <-]. apply update_health_mean.
  destruct (api_health (report e) !! s) as [h0|] eqn:Hs; cbn; [by eapply Hm|done].
Qed.

Lemma log_api_call_keeps_mean_witness :
  let c := answered GET Stores None "B"
             {| status_code := 200; body := Some (JArr []); text := "" |}
             (PyFloat.of_int 2) in
  let h := {| total := 1; success := 1; failures := 0;
              avg_latency := PyFloat.of_int 2; latencies := [PyFloat.of_int 2] |} in
  api_health (report (log_api_call c (new_flow "Get Stores" "B") new_engine).2)
    !! "B" = Some h ∧ mean_kept h.
Proof.
  intros c h.
  assert (H : api_health (report (log_api_call c (new_flow "Get Stores" "B")
                                    new_engine).2) !! "B" = Some h)
    by (vm_compute; reflexivity).
  split; [exact H|].
  apply (log_api_call_keeps_mean c (new_flow "Get Stores" "B") new_engine) with "B";
    [|exact H].
  intros s h0 Hs. cbn in Hs. by rewrite lookup_empty in Hs.
Defined.

Lemma record_sound c m : service_tag c → sound_health m → sound_health (record c m).
Proof.
  intros Hc Hm s h. rewrite lookup_record. case_decide as Hs; [|apply Hm].
  intros [= <-].
  assert (Habc : s = "A" ∨ s = "B" ∨ s = "C").
  { destruct Hc as [H|[H|H]]; rewrite H in Hs; injection Hs as <-; auto. }
  destruct (m !! s) as [h0|] eqn:Hh; cbn [default from_option id].
  - destruct (Hm s h0 Hh) as (_ & Hb & Hpos & Hlen & Hmean).
    split; [done|]. repeat split.
    + cbn. destruct (is_2xx _); lia.
    + cbn. lia.
    + cbn. destruct (measured _); rewrite ?length_app; cbn; lia.
    + by apply update_health_mean.
  - split; [done|]. repeat split.
    + cbn. by destruct (is_2xx _).
    + cbn. lia.
    + cbn. destruct (measured _); cbn; lia.
    + apply update_health_mean, new_health_mean.
Qed.

Lemma record_all_sound calls m :
  Forall service_tag calls → sound_health m → sound_health (record_all calls m).
Proof.
  intros Hc. revert m. induction Hc as [|c calls Hc _ IH]; intros m Hm; [done|].
  apply IH. by apply record_sound.
Qed.

Lemma add_to_cart_tags server e : Forall service_tag (apis (test_add_to_cart server e).1).
Proof.
  unfold_step. run_step; cbn [app];
    repeat first [apply Forall_nil_2 | apply Forall_cons_2]; by left.
Qed.

Lemma perform_tags server st e : Forall service_tag (logged server st e).
Proof.
  unfold logged. apply Forall_app. split.
  - destruct st; cbn [inline_flows]; try by constructor.
    destruct (repairs_cart e); cbn [map concat]; [|by constructor].
    rewrite app_nil_r. apply add_to_cart_tags.
  - destruct st; unfold_step; run_step; cbn [app];
      repeat first [apply Forall_nil_2 | apply Forall_cons_2];
      unfold service_tag; first [by left | by right; left | by right; right].
Qed.

Lemma run_schedule_sound server steps :
  ∀ e, sound_health (api_health (report e)) →
       sound_health (api_health (report (run_schedule server steps e))).
Proof.
  induction steps as [|[keep st] steps IH]; intros e He; [done|].
  rewrite run_schedule_cons. apply IH.
  destruct (perform_health server st e) as [_ Hh].
  pose proof (record_all_sound _ _ (perform_tags server st e) He) as Hs.
  rewrite <- Hh in Hs.
  unfold run_entry, recorded, unrecorded. cbn [fst snd].
  destruct (perform server st e) as [flow e']. cbn [fst snd] in *.
  by destruct keep.
Qed.

(** X14.  After a run, whatever the platform answered, the health table holds
    entries only for the services A, B and C, and in each of them the total
    is positive and equals successes plus failures, the latencies are no
    more than the total, and the average is their mean. *)
Theorem run_health_is_sound (server : list Request → Request → Reply)
    (s : string) (h : ServiceHealth) :
  api_health (report (run_all_tests server new_engine)) !! s = Some h →
  (s = "A" ∨ s = "B" ∨ s = "C") ∧
  total h = success h + failures h ∧
  0 < total h ∧
  length (latencies h) ≤ total h ∧
  mean_kept h.
Proof.
  rewrite run_all_tests_schedule.
  apply (run_schedule_sound server schedule new_engine).
  intros s' h' H. cbn [new_engine report api_health] in H.
  by rewrite lookup_empty in H.
Qed.

Lemma run_health_is_sound_witness :
  let h := {| total := 1; success := 1; failures := 0;
              avg_latency := PyFloat.of_int 1; latencies := [PyFloat.of_int 1] |} in
  api_health (report (run_all_tests platform new_engine)) !! "C" = Some h ∧
  total h = success h + failures h ∧ 0 < total h.
Proof.
  intros h.
  assert (H : api_health (report (run_all_tests platform new_engine)) !! "C" = Some h)
    by (vm_compute; reflexivity).
  split; [exact H|].
  destruct (run_health_is_sound platform "C" h H) as (_ & Hb & Hpos & _).
  exact (conj Hb Hpos).
Defined.

Lemma guard_skips server st e (g : Engine → json) :
  g ∈ guard st → truthy (g e) = false →
  result (perform server st e).1 = SKIPPED ∧ apis (perform server st e).1 = [].
Proof.
  intros Hin Hf.
  destruct st; cbn [guard] in Hin; members Hin; unfold_step; run_step;
    try done;
    rewrite Hf in *; cbn in *; rewrite ?orb_true_r in *; done.
Qed.

Lemma customer_flow_guard st :
  step_name st ∈ customer_flows → customer_token ∈ guard st.
Proof.
  destruct st; cbn [guard]; intros H; try (by constructor); exfalso;
    unfold customer_flows in H; cbn in H;
    repeat (apply elem_of_cons in H as [H|H]; [discriminate H|]);
    by apply elem_of_nil in H.
Qed.

Lemma run_entry_session server (p : bool * Step) e f :
  f ∉ writes p.2 → field f (run_entry server p e) = field f e.
Proof.
  destruct p as [keep st]. cbn [snd]. intros Hf.
  pose proof (perform_frame server st e f Hf) as H.
  unfold run_entry, recorded, unrecorded. cbn [fst snd].
  destruct (perform server st e) as [flow e']. cbn [fst snd] in *.
  rewrite <- H. by destruct keep, f.
Qed.

Lemma tokenless_schedule server steps :
  Forall (λ p : bool * Step, CustomerToken ∉ writes p.2) steps →
  ∀ e f,
    truthy (customer_token e) = false →
    f ∈ flows (report (run_schedule server steps e)) →
    f ∈ flows (report e) ∨
    (name f ∈ customer_flows → result f = SKIPPED ∧ apis f = []).
Proof.
  induction 1 as [|[keep st] steps Hp _ IH]; intros e f He Hf; [by left|].
  rewrite run_schedule_cons in Hf. cbn [snd] in Hp.
  pose proof (run_entry_session server (keep, st) e CustomerToken Hp) as Htok.
  cbn [field] in Htok.
  destruct (IH (run_entry server (keep, st) e) f) as [Hin|Hgood];
    [by rewrite Htok|done| |by right].
  rewrite run_entry_flows in Hin. cbn [fst snd] in Hin.
  apply elem_of_app in Hin as [Hin|Hin]; [by left|]. right.
  destruct keep; [|by apply elem_of_nil in Hin].
  apply list_elem_of_singleton in Hin as ->. rewrite flow_name. intros Hname.
  apply (guard_skips server st e customer_token); [|done].
  by apply customer_flow_guard.
Qed.

Lemma tokenless_schedule_token server steps :
  Forall (λ p : bool * Step, CustomerToken ∉ writes p.2) steps →
  ∀ e, customer_token (run_schedule server steps e) = customer_token e.
Proof.
  induction 1 as [|p steps Hp _ IH]; intros e; [done|].
  rewrite run_schedule_cons, IH.
  apply (run_entry_session server p e CustomerToken Hp).
Qed.

(** X15.  Skips propagate through a run: if the run ends without a customer
    token, then every flow of the report whose step needs that token (the
    current-user, address, cart, payment-intent, order and cross-service
    steps) was skipped without a call. *)
Theorem no_customer_token_skips_customer_steps
    (server : list Request → Request → Reply) (f : TestFlow) :
  truthy (customer_token (run_all_tests server new_engine)) = false →
  f ∈ flows (report (run_all_tests server new_engine)) →
  name f ∈ customer_flows →
  result f = SKIPPED ∧ apis f = [].
Proof.
  rewrite run_all_tests_schedule. unfold schedule.
  do 2 rewrite run_schedule_cons.
  set (e2 := run_entry server _ (run_entry server _ new_engine)).
  match goal with
  | |- context [run_schedule server ?l e2] => set (rest := l)
  end.
  assert (Hrest : Forall (λ p : bool * Step, CustomerToken ∉ writes p.2) rest).
  { subst rest.
    repeat (apply Forall_cons_2;
            [cbn; intros H; repeat (apply elem_of_cons in H as [H|H]; [discriminate H|]);
             by apply elem_of_nil in H|]).
    constructor. }
  pose proof (tokenless_schedule_token server rest Hrest e2) as Htok.
  rewrite Htok. intros He Hf Hname.
  destruct (tokenless_schedule server rest Hrest e2 f He Hf) as [Hin|Hgood];
    [|by apply Hgood].
  exfalso. subst e2. rewrite !run_entry_flows in Hin. cbn [fst snd] in Hin.
  cbn [new_engine report flows app] in Hin.
  apply elem_of_cons in Hin as [->|Hin];
    [|apply list_elem_of_singleton in Hin as ->];
    rewrite flow_name in Hname; unfold customer_flows in Hname; cbn in Hname;
    repeat (apply elem_of_cons in Hname as [Hname|Hname]; [discriminate Hname|]);
    by apply elem_of_nil in Hname.
Qed.

Lemma no_customer_token_skips_customer_steps_witness :
  let down := always 503 JNull in
  let f := (test_get_cart down (run_schedule down (take 11 schedule) new_engine)).1 in
  truthy (customer_token (run_all_tests down new_engine)) = false ∧
  name f = "Get Cart" ∧ result f = SKIPPED ∧ apis f = [].
Proof.
  intros down f.
  assert (Htok : truthy (customer_token (run_all_tests down new_engine)) = false)
    by (vm_compute; reflexivity).
  assert (Hf : name f = "Get Cart") by (vm_compute; reflexivity).
  assert (Hname : name f ∈ customer_flows).
  { rewrite Hf. unfold customer_flows.
    do 3 apply list_elem_of_further. apply list_elem_of_here. }
  assert (Hin : f ∈ flows (report (run_all_tests down new_engine))).
  { apply list_elem_of_lookup. exists 11. vm_compute. reflexivity. }
  split; [exact Htok|]. split; [exact Hf|].
  exact (no_customer_token_skips_customer_steps down f Htok Hin Hname).
Defined.

(** ** The properties at concrete inputs *)

Lemma health_entry_after_logging_witness :
  let ok := answered GET Stores None "B"
              {| status_code := 200; body := Some (JArr []); text := "" |}
              (PyFloat.of_int 1) in
  let down := refused POST Notify (Some NotifyPayload) "C" "connection refused" in
  let flow := new_flow "Get Stores" "B" in
  "B" ≠ "" ∧
  match api_health (report (log_calls [ok; down; ok] flow new_engine).2) !! "B" with
  | None => tagged "B" [ok; down; ok] = 0
  | Some h =>
      0 < tagged "B" [ok; down; ok] ∧
      total h = tagged "B" [ok; down; ok] ∧
      success h = succeeded "B" [ok; down; ok] ∧
      failures h = tagged "B" [ok; down; ok] - succeeded "B" [ok; down; ok] ∧
      latencies h = measured_for "B" [ok; down; ok]
  end.
Proof.
  intros ok down flow.
  assert (Hs : "B" ≠ "") by discriminate.
  split; [exact Hs|].
  exact (health_entry_after_logging [ok; down; ok] flow "B" Hs).
Defined.

Lemma pass_means_expected_status_witness :
  result (perform platform GetProducts new_engine).1 = PASS ∧
  ∃ c, last (apis (perform platform GetProducts new_engine).1) = Some c ∧
       response_code c = Some (expected_status GetProducts).
Proof.
  assert (H : result (perform platform GetProducts new_engine).1 = PASS)
    by (vm_compute; reflexivity).
  split; [exact H|].
  exact (pass_means_expected_status platform GetProducts new_engine H).
Defined.

Lemma warning_means_contract_violation_witness :
  let down := always 503 JNull in
  result (perform down NotificationService new_engine).1 = WARNING ∧
  ∃ c, last (apis (perform down NotificationService new_engine).1) = Some c ∧
       response_code c ≠ Some (expected_status NotificationService).
Proof.
  intros down.
  assert (H : result (perform down NotificationService new_engine).1 = WARNING)
    by (vm_compute; reflexivity).
  split; [exact H|].
  exact (warning_means_contract_violation down NotificationService new_engine H).
Defined.

Lemma skipped_flow_has_no_call_witness :
  GetCart ≠ CrossServiceCartOrderFlow ∧
  result (perform platform GetCart new_engine).1 = SKIPPED ∧
  apis (perform platform GetCart new_engine).1 = [].
Proof.
  assert (Hst : GetCart ≠ CrossServiceCartOrderFlow) by discriminate.
  assert (H : result (perform platform GetCart new_engine).1 = SKIPPED)
    by (vm_compute; reflexivity).
  split; [exact Hst|]. split; [exact H|].
  exact (skipped_flow_has_no_call platform GetCart new_engine Hst H).
Defined.

Lemma failed_flow_is_explained_witness :
  let down := always 503 JNull in
  result (perform down GetProducts new_engine).1 = FAIL ∧
  explained (root_cause (perform down GetProducts new_engine).1) = true.
Proof.
  intros down.
  assert (H : result (perform down GetProducts new_engine).1 = FAIL)
    by (vm_compute; reflexivity).
  split; [exact H|].
  exact (failed_flow_is_explained down GetProducts new_engine H).
Defined.

Lemma step_writes_only_its_fields_witness :
  (CustomerToken ∉ writes GetProducts) ∧
  field CustomerToken (perform platform GetProducts shopper).2
  = field CustomerToken shopper.
Proof.
  assert (H : CustomerToken ∉ writes GetProducts).
  { cbn [writes]. intros Hin. apply list_elem_of_singleton in Hin. discriminate Hin. }
  split; [exact H|].
  exact (step_writes_only_its_fields platform GetProducts shopper CustomerToken H).
Defined.

Lemma session_changes_only_on_pass_witness :
  let down := always 503 JNull in
  (∀ email password role, GetProducts ≠ UserLogin email password role) ∧
  GetProducts ≠ CreatePaymentIntent ∧
  result (perform down GetProducts shopper).1 ≠ PASS ∧
  session (perform down GetProducts shopper).2 = session shopper.
Proof.
  intros down.
  assert (Hlogin : ∀ email password role, GetProducts ≠ UserLogin email password role)
    by (intros email password role; discriminate).
  assert (Hpay : GetProducts ≠ CreatePaymentIntent) by discriminate.
  assert (H : result (perform down GetProducts shopper).1 ≠ PASS)
    by (vm_compute; discriminate).
  split; [exact Hlogin|]. split; [exact Hpay|]. split; [exact H|].
  exact (session_changes_only_on_pass down GetProducts shopper Hlogin Hpay H).
Defined.
